(** * Padaria REST API over Supabase: a shallow embedding of [server.js]
      (the Express backend) and of the browser script that talks to it.

    The program is JavaScript, so the embedding starts with the fragment of
    ECMAScript the handlers rely on: strings as sequences of UTF-16 code
    units, Numbers as IEEE 754 binary64 values, the coercions [ToBoolean],
    [ToNumber], and the built-ins [isNaN], [parseFloat], [parseInt] and
    [String.prototype.trim]. *)

From Stdlib Require Import ZArith NArith List Bool String Ascii Lia.
From Stdlib Require Import Numbers.DecimalString Numbers.DecimalPos.
From Stdlib Require Import Floats.SpecFloat.
From Stdlib Require Import Sorting.Permutation Sorting.Sorted.
Import ListNotations.

Local Open Scope Z_scope.

(* ================================================================== *)
(** * ECMAScript primitives *)
(* ================================================================== *)

Module JS.

(** ** Strings: lists of UTF-16 code units *)

Definition code_unit := N.
Definition jsstring := list code_unit.

(** Source literals are written in UTF-8; [utf16_of_utf8] decodes the bytes
    of a literal into the code units the engine holds. *)
Fixpoint utf16_of_utf8 (bs : list N) : jsstring :=
  match bs with
  | [] => []
  | b0 :: r0 =>
    if (b0 <? 128)%N then b0 :: utf16_of_utf8 r0
    else
      match r0 with
      | [] => [65533%N]
      | b1 :: r1 =>
        if (b0 <? 224)%N
        then ((b0 - 192) * 64 + (b1 - 128))%N :: utf16_of_utf8 r1
        else
          match r1 with
          | [] => [65533%N]
          | b2 :: r2 =>
            if (b0 <? 240)%N
            then ((b0 - 224) * 4096 + (b1 - 128) * 64 + (b2 - 128))%N
                   :: utf16_of_utf8 r2
            else
              match r2 with
              | [] => [65533%N]
              | b3 :: r3 =>
                let cp := ((b0 - 240) * 262144 + (b1 - 128) * 4096
                           + (b2 - 128) * 64 + (b3 - 128))%N in
                let v := (cp - 65536)%N in
                (55296 + v / 1024)%N :: (56320 + v mod 1024)%N
                  :: utf16_of_utf8 r3
              end
          end
      end
  end.

Definition lit (s : string) : jsstring :=
  utf16_of_utf8 (map N_of_ascii (list_ascii_of_string s)).

Definition jsstring_eqb (a b : jsstring) : bool :=
  if list_eq_dec N.eq_dec a b then true else false.

(** WhiteSpace and LineTerminator code points (ECMA-262, 12.2 and 12.3):
    TAB, LF, VT, FF, CR, SP, NBSP, the Unicode Zs category, LS, PS and the
    byte order mark. All of them are single code units. *)
Definition is_whitespace (c : code_unit) : bool :=
  ((9 <=? c) && (c <=? 13) || (c =? 32) || (c =? 160) || (c =? 5760)
   || (8192 <=? c) && (c <=? 8202) || (c =? 8232) || (c =? 8233)
   || (c =? 8239) || (c =? 8287) || (c =? 12288) || (c =? 65279))%N.

Fixpoint trimStart (s : jsstring) : jsstring :=
  match s with
  | c :: r => if is_whitespace c then trimStart r else s
  | [] => []
  end.

Definition trimEnd (s : jsstring) : jsstring := rev (trimStart (rev s)).

(** [String.prototype.trim] *)
Definition trim (s : jsstring) : jsstring := trimEnd (trimStart s).

(** ** Numbers: IEEE 754 binary64 *)

Definition number := spec_float.
Definition prec : Z := 53.
Definition emax : Z := 1024.

Definition NaN : number := S754_nan.
Definition Infinity (neg : bool) : number := S754_infinity neg.
Definition zero (neg : bool) : number := S754_zero neg.

(** The Number nearest to an integer (ties to even). *)
Definition num_of_Z (z : Z) : number := binary_normalize prec emax z 0 false.

(** The Number nearest to [± d × 10^k], for a natural [d]: the rounding
    ECMA-262 applies to the mathematical value of a numeric literal. *)
Definition round_decimal (neg : bool) (d k : Z) : number :=
  match d with
  | Zpos p =>
    if 0 <=? k
    then binary_round prec emax neg (Z.to_pos (Zpos p * 10 ^ k)) 0
    else SFdiv prec emax (S754_finite neg p 0)
                         (S754_finite false (Z.to_pos (10 ^ (- k))) 0)
  | _ => zero neg
  end.

Definition is_nan (x : number) : bool :=
  match x with S754_nan => true | _ => false end.

(** [x <= y] and [x < y] on Numbers; both are false when an operand is NaN. *)
Definition num_leb (x y : number) : bool := SFleb x y.
Definition num_ltb (x y : number) : bool := SFltb x y.

Definition is_zero (x : number) : bool :=
  match x with S754_zero _ => true | _ => false end.

(** ** Numeric literals in strings *)

Definition is_digit (c : code_unit) : bool := ((48 <=? c) && (c <=? 57))%N.

(** Value of a digit or letter in the largest radix, 36. *)
Definition digit_of (c : code_unit) : option Z :=
  if ((48 <=? c) && (c <=? 57))%N then Some (Z.of_N c - 48)
  else if ((97 <=? c) && (c <=? 122))%N then Some (Z.of_N c - 87)
  else if ((65 <=? c) && (c <=? 90))%N then Some (Z.of_N c - 55)
  else None.

Definition is_radix_digit (radix : Z) (c : code_unit) : bool :=
  match digit_of c with
  | Some v => v <? radix
  | None => false
  end.

Definition digit_or_zero (c : code_unit) : Z :=
  match digit_of c with Some v => v | None => 0 end.

(** Longest prefix whose code units satisfy [p], and what follows it. *)
Fixpoint span (p : code_unit -> bool) (s : jsstring) : jsstring * jsstring :=
  match s with
  | c :: r =>
    if p c then let '(a, b) := span p r in (c :: a, b) else ([], s)
  | [] => ([], [])
  end.

Definition radix_value (radix : Z) (ds : jsstring) : Z :=
  fold_left (fun acc c => radix * acc + digit_or_zero c) ds 0.

Definition digits_value (ds : jsstring) : Z := radix_value 10 ds.

Definition len (s : jsstring) : Z := Z.of_nat (List.length s).

(** An optional leading ["+"] or ["-"]. *)
Definition scan_sign (s : jsstring) : bool * jsstring :=
  match s with
  | c :: r =>
    if (c =? 43)%N then (false, r)
    else if (c =? 45)%N then (true, r)
    else (false, s)
  | [] => (false, s)
  end.

(** An optional ExponentPart: [e] or [E], an optional sign and at least one
    digit. When it is absent or malformed nothing is consumed. *)
Definition scan_exponent (s : jsstring) : Z * jsstring :=
  match s with
  | c :: r =>
    if ((c =? 101) || (c =? 69))%N then
      let '(neg, r1) := scan_sign r in
      match span is_digit r1 with
      | ([], _) => (0, s)
      | (ds, rest) => (cond_Zopp neg (digits_value ds), rest)
      end
    else (0, s)
  | [] => (0, s)
  end.

(** The longest prefix that is a StrUnsignedDecimalLiteral other than
    [Infinity]: digits with an optional fraction and exponent, or a fraction
    that starts with the point. Yields the literal as [d × 10^k] and the rest
    of the string. *)
Definition scan_decimal (s : jsstring) : option (Z * Z * jsstring) :=
  let '(ip, r1) := span is_digit s in
  let dotted :=
    match r1 with
    | c :: t => if (c =? 46)%N then Some t else None
    | [] => None
    end in
  match ip, dotted with
  | [], None => None
  | [], Some t =>
    match span is_digit t with
    | ([], _) => None
    | (fp, r2) =>
      let '(e, rest) := scan_exponent r2 in
      Some (digits_value fp, e - len fp, rest)
    end
  | _ :: _, Some t =>
    let '(fp, r2) := span is_digit t in
    let '(e, rest) := scan_exponent r2 in
    Some (digits_value (ip ++ fp), e - len fp, rest)
  | _ :: _, None =>
    let '(e, rest) := scan_exponent r1 in
    Some (digits_value ip, e, rest)
  end.

Fixpoint strip_prefix (p s : jsstring) : option jsstring :=
  match p, s with
  | [], _ => Some s
  | a :: p', b :: s' => if (a =? b)%N then strip_prefix p' s' else None
  | _ :: _, [] => None
  end.

(** The longest prefix that is a StrDecimalLiteral, as a Number. *)
Definition scan_StrDecimalLiteral (s : jsstring) : option (number * jsstring) :=
  let '(neg, r) := scan_sign s in
  match strip_prefix (lit "Infinity") r with
  | Some rest => Some (Infinity neg, rest)
  | None =>
    match scan_decimal r with
    | Some (d, k, rest) => Some (round_decimal neg d k, rest)
    | None => None
    end
  end.

(** [0x], [0o] and [0b] literals of StringToNumber: digits only, no sign. *)
Definition radix_literal (radix : Z) (ds : jsstring) : number :=
  match ds with
  | [] => NaN
  | _ :: _ =>
    if forallb (is_radix_digit radix) ds
    then round_decimal false (radix_value radix ds) 0
    else NaN
  end.

(** StringToNumber (ECMA-262, 7.1.4.1.1): the whole string, white space
    trimmed, must be a StringNumericLiteral; the empty string is [+0]. *)
Definition StringToNumber (s : jsstring) : number :=
  let t := trim s in
  let decimal :=
    match scan_StrDecimalLiteral t with
    | Some (x, []) => x
    | _ => NaN
    end in
  match t with
  | [] => zero false
  | c0 :: c1 :: ds =>
    if (c0 =? 48)%N then
      if ((c1 =? 120) || (c1 =? 88))%N then radix_literal 16 ds
      else if ((c1 =? 111) || (c1 =? 79))%N then radix_literal 8 ds
      else if ((c1 =? 98) || (c1 =? 66))%N then radix_literal 2 ds
      else decimal
    else decimal
  | _ => decimal
  end.

(** [parseFloat] on a string (ECMA-262, 19.2.4): leading white space is
    skipped and the longest prefix that is a StrDecimalLiteral is converted;
    what follows it is ignored. *)
Definition parseFloat_string (s : jsstring) : number :=
  match scan_StrDecimalLiteral (trimStart s) with
  | Some (x, _) => x
  | None => NaN
  end.

(** [parseInt] on a string with no radix argument (ECMA-262, 19.2.5): leading
    white space, a sign, [0x] or [0X] selecting radix 16, then the longest
    run of digits of the radix. *)
Definition strip_hex_prefix (r : jsstring) : Z * jsstring :=
  match r with
  | c0 :: c1 :: rest =>
    if ((c0 =? 48) && ((c1 =? 120) || (c1 =? 88)))%N then (16, rest)
    else (10, r)
  | _ => (10, r)
  end.

Definition parseInt (s : jsstring) : number :=
  let '(neg, r) := scan_sign (trimStart s) in
  let '(radix, r') := strip_hex_prefix r in
  match fst (span (is_radix_digit radix) r') with
  | [] => NaN
  | ds => round_decimal neg (radix_value radix ds) 0
  end.

(** ** Values, exceptions and coercions *)

(** What [JSON.parse] can put in a request body, plus [undefined] for a
    property that is absent. An array or object is kept as the outcome of
    [ToPrimitive] on it, which is all the handlers observe besides its
    truthiness: the string its [toString] gives ([Array.prototype.join], or
    ["[object Object]"]), or [None] when neither [valueOf] nor [toString]
    yields a primitive and the conversion throws. *)
Inductive value :=
| VUndefined
| VNull
| VBool (b : bool)
| VNum (x : number)
| VStr (s : jsstring)
| VObject (prim : option jsstring).

Inductive exn :=
| TypeError (message : jsstring).

Inductive result (A : Type) :=
| Ok (a : A)
| Throw (e : exn).
Arguments Ok {A} a.
Arguments Throw {A} e.

Definition bind {A B} (m : result A) (k : A -> result B) : result B :=
  match m with
  | Ok a => k a
  | Throw e => Throw e
  end.

Declare Scope js_scope.
Delimit Scope js_scope with js.
Notation "x <- m ;; k" := (bind m (fun x => k))
  (at level 100, m at next level, right associativity) : js_scope.

Definition cannot_convert : exn :=
  TypeError (lit "Cannot convert object to primitive value").

Definition ToBoolean (v : value) : bool :=
  match v with
  | VUndefined | VNull => false
  | VBool b => b
  | VNum x => negb (is_zero x || is_nan x)
  | VStr s => match s with [] => false | _ :: _ => true end
  | VObject _ => true
  end.

Definition ToNumber (v : value) : result number :=
  match v with
  | VUndefined => Ok NaN
  | VNull => Ok (zero false)
  | VBool b => Ok (if b then num_of_Z 1 else zero false)
  | VNum x => Ok x
  | VStr s => Ok (StringToNumber s)
  | VObject (Some s) => Ok (StringToNumber s)
  | VObject None => Throw cannot_convert
  end.

(** The global [isNaN]: NaN test after [ToNumber]. *)
Definition isNaN (v : value) : result bool :=
  (x <- ToNumber v ;; Ok (is_nan x))%js.

(** [v <= 0]: both operands go through [ToNumber] (the right one is the
    Number [0]); NaN compares false. *)
Definition le_zero (v : value) : result bool :=
  (x <- ToNumber v ;; Ok (num_leb x (zero false)))%js.

(** The global [parseFloat]: the argument goes through [ToString] first.
    For a Number argument, [Number::toString] prints the shortest decimal
    that reads back as the same Number (["0"] for both zeros), so the result
    is the argument itself, with [-0] turned into [+0]. *)
Definition parseFloat (v : value) : result number :=
  match v with
  | VUndefined => Ok (parseFloat_string (lit "undefined"))
  | VNull => Ok (parseFloat_string (lit "null"))
  | VBool b => Ok (parseFloat_string (lit (if b then "true" else "false")))
  | VNum x => Ok (if is_zero x then zero false else x)
  | VStr s => Ok (parseFloat_string s)
  | VObject (Some s) => Ok (parseFloat_string s)
  | VObject None => Throw cannot_convert
  end.

(** Signed decimals with a fraction: an optional ["-"], digits, a point and
    digits, as in ["7.9"] or ["-12.50"]. *)
Definition sign_prefix (neg : bool) : jsstring := if neg then lit "-" else [].

Definition decimal_fraction (neg : bool) (ip fp : jsstring) : jsstring :=
  sign_prefix neg ++ ip ++ lit "." ++ fp.

(** [v.trim()]: only a string has the method. *)
Definition call_trim (name : string) (v : value) : result jsstring :=
  match v with
  | VStr s => Ok (trim s)
  | _ => Throw (TypeError (lit (name ++ ".trim is not a function")%string))
  end.

End JS.

(* ================================================================== *)
(** * The API service ([server.js]) *)
(* ================================================================== *)

Module Server.
Import JS.

(** ** The store: Supabase behind its query builder *)

(** A row of table [produtos] as the store returns it. [created_at] is the
    instant of creation on the store's clock. *)
Record produto := {
  id : Z;
  nome : jsstring;
  preco : number;
  descricao : option jsstring;
  created_at : Z
}.

(** The object the create handler hands to [insert]; [None] is [null]. *)
Record novo_produto := {
  novo_nome : jsstring;
  novo_preco : number;
  novo_descricao : option jsstring
}.

(** The three request shapes the handlers build:
    [from(t).select(c).order(col, {ascending})],
    [from(t).insert(rows).select()] and
    [from(t).delete().eq(col, key).select()]. *)
Inductive query :=
| Select (table columns order_by : string) (ascending : bool)
| Insert (table : string) (rows : list novo_produto)
| Delete (table column : string) (key : number).

(** What awaiting a query yields, [{ data, error }]: rows, or an error with
    its message. *)
Inductive answer :=
| Data (rows : list produto)
| Error (message : jsstring).

Definition store := query -> answer.

(** ** Responses *)

Inductive payload :=
| NoData
| Row (r : produto)
| Rows (rs : list produto).

Record response := {
  status : Z;
  success : bool;
  message : option jsstring;
  data : payload;
  total : option Z;
  error : option jsstring
}.

Definition failure (code : Z) (msg : string) (err : option jsstring) : response :=
  {| status := code; success := false; message := Some (lit msg);
     data := NoData; total := None; error := err |}.

Definition msg_obrigatorios : string := "Nome e preço são obrigatórios".
Definition msg_preco_invalido : string := "Preço deve ser um número maior que zero".
Definition msg_id_invalido : string := "ID deve ser um número válido".
Definition msg_nao_encontrado : string := "Produto não encontrado".
Definition msg_erro_interno : string := "Erro interno do servidor".

(** The validation envelopes, the not-found envelope and the envelope that
    carries an error of the store. *)
Definition campos_obrigatorios : response := failure 400 msg_obrigatorios None.
Definition preco_invalido : response := failure 400 msg_preco_invalido None.
Definition id_invalido : response := failure 400 msg_id_invalido None.
Definition nao_encontrado : response := failure 404 msg_nao_encontrado None.
Definition erro_store (msg : string) (m : jsstring) : response :=
  failure 400 msg (Some m).

(** ** Handlers: exceptions over a log of the queries sent to the store *)

Definition handler (A : Type) := list query -> result A * list query.

Definition ret {A} (a : A) : handler A := fun log => (Ok a, log).

Definition seq {A B} (m : handler A) (k : A -> handler B) : handler B :=
  fun log =>
    match m log with
    | (Ok a, log') => k a log'
    | (Throw e, log') => (Throw e, log')
    end.

Definition lift {A} (r : result A) : handler A := fun log => (r, log).

Declare Scope handler_scope.
Delimit Scope handler_scope with handler.
Notation "x <- m ;; k" := (seq m (fun x => k))
  (at level 100, m at next level, right associativity) : handler_scope.

Local Open Scope handler_scope.

(** Every route is one [try] block; its [catch] answers 500 with the
    message of the exception. [run] gives what the route sends and the log
    of the store calls it made. *)
Definition run (m : handler response) : response * list query :=
  match m [] with
  | (Ok r, log) => (r, log)
  | (Throw (TypeError e), log) => (failure 500 msg_erro_interno (Some e), log)
  end.

(** ** Queries and envelopes of the three routes *)

(** [GET /api/produtos] *)
Definition listar_query : query := Select "produtos" "*" "created_at" false.

Definition get_outcome (ans : answer) : response :=
  match ans with
  | Error m => erro_store "Erro ao buscar produtos" m
  | Data rows =>
    {| status := 200; success := true; message := None;
       data := Rows rows; total := Some (Z.of_nat (List.length rows));
       error := None |}
  end.

(** [POST /api/produtos]. [req.body] after [express.json()], destructured
    into its three properties; an absent property is [undefined]. *)
Record body := {
  body_nome : value;
  body_preco : value;
  body_descricao : value
}.

Definition inserir_query (n : novo_produto) : query := Insert "produtos" [n].

(** [data[0]] in the envelope: [undefined] when the array is empty, and then
    [JSON.stringify] drops the property. *)
Definition first_row (rows : list produto) : payload :=
  match rows with
  | r :: _ => Row r
  | [] => NoData
  end.

Definition post_outcome (ans : answer) : response :=
  match ans with
  | Error m => erro_store "Erro ao cadastrar produto" m
  | Data rows =>
    {| status := 201; success := true;
       message := Some (lit "Produto cadastrado com sucesso!");
       data := first_row rows; total := None; error := None |}
  end.

(** [DELETE /api/produtos/:id] *)
Definition excluir_query (key : number) : query := Delete "produtos" "id" key.

Definition delete_outcome (ans : answer) : response :=
  match ans with
  | Error m => erro_store "Erro ao excluir produto" m
  | Data [] => nao_encontrado
  | Data (r :: _) =>
    {| status := 200; success := true;
       message := Some (lit "Produto excluído com sucesso!");
       data := Row r; total := None; error := None |}
  end.

(** ** The routes *)

Section Routes.

Variable supabase : store.

Definition await (q : query) : handler answer :=
  fun log => (Ok (supabase q), log ++ [q]).

(** [app.get('/api/produtos', ...)] *)
Definition get_produtos : handler response :=
  ans <- await listar_query ;;
  ret (get_outcome ans).

(** [app.post('/api/produtos', ...)] *)
Definition post_produtos (req : body) : handler response :=
  let nome := body_nome req in
  let preco := body_preco req in
  let descricao := body_descricao req in
  if negb (ToBoolean nome) || negb (ToBoolean preco) then
    ret campos_obrigatorios
  else
    nan <- lift (isNaN preco) ;;
    invalido <- (if nan : bool then ret true else lift (le_zero preco)) ;;
    if invalido : bool then
      ret preco_invalido
    else
      n <- lift (call_trim "nome" nome) ;;
      p <- lift (parseFloat preco) ;;
      d <- (if ToBoolean descricao
            then t <- lift (call_trim "descricao" descricao) ;; ret (Some t)
            else ret None) ;;
      ans <- await (inserir_query
                      {| novo_nome := n; novo_preco := p; novo_descricao := d |}) ;;
      ret (post_outcome ans).

(** [app.delete('/api/produtos/:id', ...)]. [req.params.id] is always a
    string. *)
Definition delete_produto (id : jsstring) : handler response :=
  nan <- lift (isNaN (VStr id)) ;;
  if nan : bool then
    ret id_invalido
  else
    ans <- await (excluir_query (parseInt id)) ;;
    ret (delete_outcome ans).

End Routes.

(** ** What the store does with [order]

    The service never sorts by itself: the order of a list response is the
    order in which the store returns the rows. [order] is the documented
    meaning of [.order(column, { ascending })] for an integer-valued column,
    and [runs_order st t] says that store [st], holding the rows [t] in
    [produtos], runs the list query that way. *)

Definition tabela := list produto.

Definition before (ascending : bool) (a b : Z) : bool :=
  if ascending then a <=? b else b <=? a.

Fixpoint insert_by (key : produto -> Z) (ascending : bool)
         (r : produto) (l : list produto) : list produto :=
  match l with
  | [] => [r]
  | x :: xs =>
    if before ascending (key r) (key x) then r :: l
    else x :: insert_by key ascending r xs
  end.

Definition order (key : produto -> Z) (ascending : bool) (t : tabela)
  : list produto :=
  fold_right (insert_by key ascending) [] t.

Definition runs_order (st : store) (t : tabela) : Prop :=
  forall ascending,
    st (Select "produtos" "*" "created_at" ascending)
    = Data (order created_at ascending t).

(** Rows are newest first when each one is at least as recent as the next. *)
Definition newest_first : list produto -> Prop :=
  Sorted (fun a b => created_at b <= created_at a).

End Server.

(* ================================================================== *)
(** * The client application (the browser script) *)
(* ================================================================== *)

Module Client.
Import JS.

Definition produto := Server.produto.

Definition API_BASE_URL : string := "http://localhost:3000/api".

(** ** The network *)

Inductive method := GET | POST | DELETE.

(** [dadosProduto], the object the form builds and [JSON.stringify] sends. *)
Record dados_produto := {
  dados_nome : jsstring;
  dados_preco : number;
  dados_descricao : option jsstring
}.

Record request := {
  req_method : method;
  req_url : jsstring;
  req_body : option dados_produto
}.

(** The parsed JSON of a response, as far as the script reads it:
    [data.message] and [data.data] ([None] when absent). *)
Record resposta := {
  resp_message : option jsstring;
  resp_data : option (list produto)
}.

(** What [await fetch(...)] followed by [await response.json()] gives: the
    flag [response.ok] and the parsed body, or a rejection with its
    message. *)
Inductive fetched :=
| Response (ok : bool) (body : resposta)
| Rejected (message : jsstring).

(** ** Observable effects, in the order they happen *)

Inductive tipo := sucesso | erro | info.

Inductive efeito :=
| Fetch (r : request)
| Notificacao (mensagem : jsstring) (t : tipo)
| Focus (campo : string)
| FormReset
| LoadingCadastro (on : bool)
| Render (ps : list produto)
| ListaVazia.

(** The two globals of the script, the state of the confirmation modal and
    the effects so far. [produtoParaExcluir] is [null] or an id. *)
Record client := {
  produtos : list produto;
  produtoParaExcluir : option Z;
  modal_aberto : bool;
  efeitos : list efeito
}.

Definition emit (e : efeito) (c : client) : client :=
  {| produtos := produtos c; produtoParaExcluir := produtoParaExcluir c;
     modal_aberto := modal_aberto c; efeitos := efeitos c ++ [e] |}.

Definition set_produtos (ps : list produto) (c : client) : client :=
  {| produtos := ps; produtoParaExcluir := produtoParaExcluir c;
     modal_aberto := modal_aberto c; efeitos := efeitos c |}.

Definition mostrarNotificacao (mensagem : jsstring) (t : tipo) (c : client)
  : client :=
  emit (Notificacao mensagem t) c.

(** The requests among the effects. *)
Definition requests (es : list efeito) : list request :=
  flat_map (fun e => match e with Fetch r => [r] | _ => [] end) es.

(** ** An id in a template literal

    An id is a Number with an integral value; [Some z] stands for the
    Number nearest to [z]. Up to [2^53] every integer is a Number and
    [Number::toString] (ECMA-262, 6.1.6.1.20) prints its digits. Beyond,
    it prints the fewest digits that read back as the same Number, padded
    with zeros, and switches to exponent form from [10^21] on. *)
Definition decimal (z : Z) : jsstring :=
  lit (NilZero.string_of_int (Z.to_int z)).

Definition same_number (a b : Z) : bool := SFeqb (num_of_Z a) (num_of_Z b).

(** The integer a Number beyond [2^53] is. *)
Definition integer_value (x : number) : Z :=
  match x with
  | S754_finite _ m e => Zpos m * 2 ^ e
  | _ => 0
  end.

(** The integer with the fewest significant digits, [k] or more, that reads
    back as the Number [X] of [n] digits: with [k] digits kept, the
    candidates are [X] cut after them and the next one up; between two that
    read back, the nearer to [X] wins, the even one on a tie. *)
Fixpoint shortest (fuel : nat) (k n X : Z) : Z :=
  match fuel with
  | O => X
  | S f =>
    let p := 10 ^ (n - k) in
    let lo := X / p * p in
    let hi := lo + p in
    match same_number lo X, same_number hi X with
    | true, true =>
      if X - lo <? hi - X then lo
      else if hi - X <? X - lo then hi
      else if Z.even (X / p) then lo else hi
    | true, false => lo
    | false, true => hi
    | false, false => shortest f (k + 1) n X
    end
  end.

Fixpoint strip_zeros (ds : jsstring) : jsstring :=
  match ds with
  | [] => []
  | c :: r =>
    match strip_zeros r with
    | [] => if (c =? 48)%N then [] else [c]
    | r' => c :: r'
    end
  end.

(** Up to 21 digits are printed in full; a longer integer as its first
    significant digit, the others after a point, and [e+] with the number of
    digits less one. *)
Definition format_integer (v : Z) : jsstring :=
  let ds := decimal v in
  let n := Z.of_nat (List.length ds) in
  if n <=? 21 then ds
  else
    match strip_zeros ds with
    | [] => ds
    | [d] => d :: lit "e+" ++ decimal (n - 1)
    | d :: r => d :: lit "." ++ r ++ lit "e+" ++ decimal (n - 1)
    end.

Definition integer_to_string (z : Z) : jsstring :=
  if Z.abs z <=? 2 ^ 53 then decimal z
  else
    (if z <? 0 then lit "-" else [])
    ++ match num_of_Z (Z.abs z) with
       | S754_infinity _ => lit "Infinity"
       | x =>
         let X := integer_value x in
         format_integer
           (shortest 17 1 (Z.of_nat (List.length (decimal X))) X)
       end.

(** [`${id}`] for the argument of [excluirProduto]: [null] prints as
    ["null"], a Number as [Number::toString] prints it. *)
Definition id_to_string (id : option Z) : jsstring :=
  match id with
  | None => lit "null"
  | Some z => integer_to_string z
  end.

(** [x || fallback] on a string that may be absent. *)
Definition or_default (x : option jsstring) (fallback : string) : jsstring :=
  match x with
  | Some (c :: s) => c :: s
  | _ => lit fallback
  end.

(** The three requests the script sends. *)
Definition listar : request :=
  {| req_method := GET; req_url := lit (API_BASE_URL ++ "/produtos");
     req_body := None |}.

Definition cadastrar (dados : dados_produto) : request :=
  {| req_method := POST; req_url := lit (API_BASE_URL ++ "/produtos");
     req_body := Some dados |}.

Definition excluir_url (id : option Z) : jsstring :=
  lit (API_BASE_URL ++ "/produtos/") ++ id_to_string id.

Definition excluir (id : option Z) : request :=
  {| req_method := DELETE; req_url := excluir_url id; req_body := None |}.

Section Script.

(** The other side of the network: the answer to a request, which may
    depend on everything the page did before. *)
Variable rede : list efeito -> request -> fetched.

Definition fetch (r : request) (c : client) : fetched * client :=
  (rede (efeitos c) r, emit (Fetch r) c).

Definition renderizarProdutos (c : client) : client :=
  match produtos c with
  | [] => emit ListaVazia c
  | ps => emit (Render ps) c
  end.

Definition buscarProdutos (c : client) : client :=
  let '(r, c1) := fetch listar c in
  let falhou (m : jsstring) :=
    emit ListaVazia
      (mostrarNotificacao (lit "Erro ao carregar produtos: " ++ m) erro c1) in
  match r with
  | Response true b =>
    renderizarProdutos
      (set_produtos (match resp_data b with Some ps => ps | None => [] end) c1)
  | Response false b =>
    falhou (or_default (resp_message b) "Erro ao buscar produtos")
  | Rejected m => falhou m
  end.

Definition cadastrarProduto (dados : dados_produto) (c : client) : client :=
  let '(r, c1) := fetch (cadastrar dados) c in
  let falhou (m : jsstring) :=
    mostrarNotificacao (lit "Erro ao cadastrar produto: " ++ m) erro c1 in
  match r with
  | Response true _ =>
    buscarProdutos
      (emit FormReset
         (mostrarNotificacao (lit "Produto cadastrado com sucesso!") sucesso c1))
  | Response false b =>
    falhou (or_default (resp_message b) "Erro ao cadastrar produto")
  | Rejected m => falhou m
  end.

Definition excluirProduto (id : option Z) (c : client) : client :=
  let '(r, c1) := fetch (excluir id) c in
  let falhou (m : jsstring) :=
    mostrarNotificacao (lit "Erro ao excluir produto: " ++ m) erro c1 in
  match r with
  | Response true _ =>
    buscarProdutos
      (mostrarNotificacao (lit "Produto excluído com sucesso!") sucesso c1)
  | Response false b =>
    falhou (or_default (resp_message b) "Erro ao excluir produto")
  | Rejected m => falhou m
  end.

Definition confirmarExclusao (id : Z) (nome : jsstring) (c : client) : client :=
  {| produtos := produtos c; produtoParaExcluir := Some id;
     modal_aberto := true; efeitos := efeitos c |}.

Definition cancelarExclusao (c : client) : client :=
  {| produtos := produtos c; produtoParaExcluir := None;
     modal_aberto := false; efeitos := efeitos c |}.

(** [if (produtoParaExcluir)]: [null] and the id [0] are falsy. *)
Definition pendente (c : client) : bool :=
  match produtoParaExcluir c with
  | Some z => negb (z =? 0)
  | None => false
  end.

(** The global is read again for the argument of [excluirProduto], after
    [cancelarExclusao] has run. *)
Definition executarExclusao (c : client) : client :=
  if pendente c then
    let c1 := cancelarExclusao c in
    excluirProduto (produtoParaExcluir c1) c1
  else c.

(** The [submit] listener of the form, on the values of the three inputs. *)
Definition form_dados (nome preco descricao : jsstring) : dados_produto :=
  {| dados_nome := trim nome;
     dados_preco := parseFloat_string preco;
     dados_descricao :=
       match trim descricao with
       | [] => None
       | d => Some d
       end |}.

Definition submit (nome preco descricao : jsstring) (c : client) : client :=
  let dados := form_dados nome preco descricao in
  if negb (ToBoolean (VStr (dados_nome dados))) then
    emit (Focus "nome")
      (mostrarNotificacao (lit "Nome do produto é obrigatório") erro c)
  else if negb (ToBoolean (VNum (dados_preco dados)))
          || num_leb (dados_preco dados) (zero false) then
    emit (Focus "preco")
      (mostrarNotificacao (lit "Preço deve ser maior que zero") erro c)
  else
    emit (LoadingCadastro false)
      (cadastrarProduto dados (emit (LoadingCadastro true) c)).

End Script.

End Client.

(* ================================================================== *)
(** * Concrete requests *)
(* ================================================================== *)

Module Inputs.
Import JS Server.

(** [{ nome: "Pão", preco: "5.50" }] *)
Definition pao : body :=
  {| body_nome := VStr (lit "Pão"); body_preco := VStr (lit "5.50");
     body_descricao := VUndefined |}.

(** The Number 5.5, that is 11 × 2^-1 with a 53-bit significand. *)
Definition five_and_a_half : number := S754_finite false (11 * 2 ^ 49) (-50).

(** [{ nome: " ", preco: 5 }]: a name made of one space. *)
Definition blank_name : body :=
  {| body_nome := VStr (lit " "); body_preco := VNum (num_of_Z 5);
     body_descricao := VUndefined |}.

(** [{ nome: "Pão", preco: "0x10" }]: a price written in hexadecimal. *)
Definition hex_price : body :=
  {| body_nome := VStr (lit "Pão"); body_preco := VStr (lit "0x10");
     body_descricao := VUndefined |}.

(** A store that accepts everything and returns no row. *)
Definition empty_store : store := fun _ => Data [].

(** A store that fails every query. *)
Definition failing_store : store := fun _ => Error (lit "connection refused").

(** Two rows, the older one first. *)
Definition bolo : produto :=
  {| id := 7; nome := lit "Bolo"; preco := num_of_Z 12; descricao := None;
     created_at := 100 |}.

Definition broa : produto :=
  {| id := 8; nome := lit "Broa"; preco := num_of_Z 3;
     descricao := Some (lit "de milho"); created_at := 200 |}.

(** A store that holds [bolo] and [broa] and runs the list query. *)
Definition two_rows : store :=
  fun q =>
    match q with
    | Select _ _ _ ascending => Data (order created_at ascending [bolo; broa])
    | _ => Data []
    end.

(** [{ nome: "Pão", preco: 5, descricao: "  de queijo " }] *)
Definition pao_de_queijo : body :=
  {| body_nome := VStr (lit "Pão"); body_preco := VNum (num_of_Z 5);
     body_descricao := VStr (lit "  de queijo ") |}.

(** A page that has done nothing yet. *)
Definition fresh : Client.client :=
  {| Client.produtos := []; Client.produtoParaExcluir := None;
     Client.modal_aberto := false; Client.efeitos := [] |}.

(** A backend that answers every request with [ok] and an empty body. *)
Definition always_ok : list Client.efeito -> Client.request -> Client.fetched :=
  fun _ _ => Client.Response true
               {| Client.resp_message := None; Client.resp_data := None |}.

End Inputs.

(* ================================================================== *)
(** * The page's listeners, and the body on its way to the service *)
(* ================================================================== *)

Module Wiring.
Import JS Client.

(** ** Shapes of strings *)

(** A string made of white space only. *)
Definition blank (s : jsstring) : bool := forallb is_whitespace s.

(** A string with no white space at either end. *)
Definition starts_clean (s : jsstring) : bool :=
  match s with
  | c :: _ => negb (is_whitespace c)
  | [] => true
  end.

Definition outer_clean (s : jsstring) : bool :=
  starts_clean s && starts_clean (rev s).

(** Digits, [e] and digits, as in ["1e3"]. *)
Definition exponent_id (ip ex : jsstring) : jsstring := ip ++ lit "e" ++ ex.

Definition is_string (v : value) : bool :=
  match v with VStr _ => true | _ => false end.

Definition is_finite (x : number) : bool :=
  match x with
  | S754_zero _ | S754_finite _ _ _ => true
  | _ => false
  end.

(** A Number that is not NaN and carries the given sign. *)
Definition has_sign (neg : bool) (x : number) : Prop :=
  match x with
  | S754_zero s | S754_infinity s | S754_finite s _ _ => s = neg
  | S754_nan => False
  end.

(** ** From [JSON.stringify(dadosProduto)] to [req.body]

    [JSON.stringify] writes a Number that is not finite as [null], both
    zeros as [0], and any other Number as the shortest decimal that reads
    back as the same Number; a string is written and read back unchanged. *)
Definition json_number (x : number) : value :=
  if is_finite x then VNum (if is_zero x then zero false else x) else VNull.

Definition json_body (d : dados_produto) : Server.body :=
  {| Server.body_nome := VStr (dados_nome d);
     Server.body_preco := json_number (dados_preco d);
     Server.body_descricao :=
       match dados_descricao d with
       | Some s => VStr s
       | None => VNull
       end |}.

(** ** The listeners of the confirmation modal *)

(** [keydown] on the document: Escape closes the modal when it is shown. *)
Definition keydown (key : jsstring) (c : client) : client :=
  if jsstring_eqb key (lit "Escape") && modal_aberto c
  then cancelarExclusao c
  else c.

(** [click] on the modal: only a click whose target is the modal itself,
    that is the backdrop, closes it. *)
Definition modal_click (on_backdrop : bool) (c : client) : client :=
  if on_backdrop then cancelarExclusao c else c.

(** What [produtos = data.data || []] assigns. *)
Definition data_or_empty (b : resposta) : list produto :=
  match resp_data b with
  | Some ps => ps
  | None => []
  end.

(** The text of the error a failed call raises: [data.message] or the
    fallback for a response that is not [ok], the message of the rejection
    otherwise; [None] for a response that is [ok]. *)
Definition failure_text (fallback : string) (r : fetched) : option jsstring :=
  match r with
  | Response true _ => None
  | Response false b => Some (or_default (resp_message b) fallback)
  | Rejected m => Some m
  end.

(** A list that some successful answer to the list request carried. *)
Definition from_list_response
           (rede : list efeito -> request -> fetched) (ps : list produto)
  : Prop :=
  exists log b, rede log listar = Response true b /\ ps = data_or_empty b.

(** What a call of one of the script's functions may leave behind: new
    effects [es] after the old ones, the pending id and the modal as they
    were, and a cache that is either the old one or one a list response
    carried. *)
Record footprint (rede : list efeito -> request -> fetched)
       (c c' : client) (es : list efeito) : Prop := {
  fp_efeitos : efeitos c' = efeitos c ++ es;
  fp_pending : produtoParaExcluir c' = produtoParaExcluir c;
  fp_modal : modal_aberto c' = modal_aberto c;
  fp_cache : produtos c' = produtos c
             \/ from_list_response rede (produtos c')
}.

(** ** More requests and pages *)

(** The page after [confirmarExclusao(0, "Bolo")]. *)
Definition pending_zero : client :=
  confirmarExclusao 0 (lit "Bolo") Inputs.fresh.

(** A backend that rejects every request. *)
Definition offline : list efeito -> request -> fetched :=
  fun _ _ => Rejected (lit "Failed to fetch").

(** A store that accepts an insert and returns the row it created, with the
    id 1 and the instant 0; anything else returns no row. *)
Definition echoing_store : Server.store :=
  fun q =>
    match q with
    | Server.Insert _ (n :: _) =>
      Server.Data [{| Server.id := 1; Server.nome := Server.novo_nome n;
                      Server.preco := Server.novo_preco n;
                      Server.descricao := Server.novo_descricao n;
                      Server.created_at := 0 |}]
    | _ => Server.Data []
    end.

(** [{ nome: "Pão", preco: 5, descricao: 1 }]: a description that is a
    Number. *)
Definition numeric_description : Server.body :=
  {| Server.body_nome := VStr (lit "Pão");
     Server.body_preco := VNum (num_of_Z 5);
     Server.body_descricao := VNum (num_of_Z 1) |}.

End Wiring.

(* ================================================================== *)
(** * Facts about the primitives *)
(* ================================================================== *)

Module JSFacts.
Import JS.

(** ** The built-ins on a few literals *)

Example lit_utf8 : lit "Pão €" = [80; 227; 111; 32; 8364]%N.
Proof. vm_compute. reflexivity. Qed.

Example trim_both_ends : trim (lit "  de queijo ") = lit "de queijo".
Proof. vm_compute. reflexivity. Qed.

Example trim_inner_space_kept : trim (lit " a b ") = lit "a b".
Proof. vm_compute. reflexivity. Qed.

Example trim_nbsp_and_tab : trim [160; 9; 120; 10; 8232]%N = lit "x".
Proof. vm_compute. reflexivity. Qed.

Example Number_tenth :
  StringToNumber (lit "0.1") = S754_finite false 7205759403792794 (-56).
Proof. vm_compute. reflexivity. Qed.

Example Number_hex : StringToNumber (lit "0x10") = num_of_Z 16.
Proof. vm_compute. reflexivity. Qed.

Example Number_blank : StringToNumber (lit " ") = zero false.
Proof. vm_compute. reflexivity. Qed.

Example Number_exponent : StringToNumber (lit "1e3") = num_of_Z 1000.
Proof. vm_compute. reflexivity. Qed.

Example Number_trailing_text : StringToNumber (lit "12px") = NaN.
Proof. vm_compute. reflexivity. Qed.

Example Number_underflow : StringToNumber (lit "1e-400") = zero false.
Proof. vm_compute. reflexivity. Qed.

Example Number_overflow : StringToNumber (lit "-1e400") = Infinity true.
Proof. vm_compute. reflexivity. Qed.

Example Number_tie_to_even :
  StringToNumber (lit "9007199254740993") = num_of_Z 9007199254740992.
Proof. vm_compute. reflexivity. Qed.

Example parseFloat_hex : parseFloat_string (lit "0x10") = zero false.
Proof. vm_compute. reflexivity. Qed.

Example parseFloat_trailing_text : parseFloat_string (lit "  12px") = num_of_Z 12.
Proof. vm_compute. reflexivity. Qed.

Example parseFloat_open_exponent :
  parseFloat_string (lit "5e+") = num_of_Z 5.
Proof. vm_compute. reflexivity. Qed.

Example parseFloat_blank : parseFloat_string (lit " ") = NaN.
Proof. vm_compute. reflexivity. Qed.

Example parseInt_exponent : parseInt (lit "1e3") = num_of_Z 1.
Proof. vm_compute. reflexivity. Qed.

Example parseInt_hex : parseInt (lit "-0x1F") = num_of_Z (-31).
Proof. vm_compute. reflexivity. Qed.

Example parseInt_point_first : parseInt (lit ".9") = NaN.
Proof. vm_compute. reflexivity. Qed.

Example parseInt_Infinity : parseInt (lit "Infinity") = NaN.
Proof. vm_compute. reflexivity. Qed.

(** ** Truthiness and comparison *)

(** [!x] on a Number holds for the two zeros and NaN only. *)
Lemma ToBoolean_num (x : number) :
  ToBoolean (VNum x) = negb (is_zero x || is_nan x).
Proof. reflexivity. Qed.

(** The client's test [!p || p <= 0] is the negation of [0 < p]. *)
Lemma not_positive (p : number) :
  negb (ToBoolean (VNum p)) || num_leb p (zero false)
  = negb (num_ltb (zero false) p).
Proof. destruct p as [s|s| |s m e]; try destruct s; reflexivity. Qed.

Lemma ToBoolean_string (s : jsstring) :
  ToBoolean (VStr s) = false <-> s = [].
Proof. destruct s; simpl; split; congruence. Qed.

(** ** Rounding never yields NaN *)

Section Rounding.
Variables p e : Z.

Lemma shr_1_nonneg mrs : 0 <= shr_m mrs -> 0 <= shr_m (shr_1 mrs).
Proof.
  destruct mrs as [m r s]. simpl.
  destruct m as [|[q|q|]|q]; simpl; lia.
Qed.

Lemma iter_shr_1_nonneg n : forall mrs,
  0 <= shr_m mrs -> 0 <= shr_m (iter_pos shr_1 n mrs).
Proof.
  induction n as [n IH|n IH|]; intros mrs H; simpl.
  - apply IH, IH, shr_1_nonneg, H.
  - apply IH, IH, H.
  - apply shr_1_nonneg, H.
Qed.

Lemma shr_fexp_nonneg m ex l :
  0 <= m -> 0 <= shr_m (fst (shr_fexp p e m ex l)).
Proof.
  intros H. unfold shr_fexp, shr.
  assert (H0 : 0 <= shr_m (shr_record_of_loc m l)).
  { destruct l as [|[| |]]; exact H. }
  destruct (fexp p e (Zdigits2 m + ex) - ex); simpl; auto.
  apply iter_shr_1_nonneg, H0.
Qed.

Lemma round_nearest_even_nonneg m l : 0 <= m -> 0 <= round_nearest_even m l.
Proof.
  intros H. destruct l as [|[| |]]; simpl; try lia.
  destruct (Z.even m); lia.
Qed.

Lemma binary_round_aux_not_nan s m ex l :
  0 <= m -> is_nan (binary_round_aux p e s m ex l) = false.
Proof.
  intros H. unfold binary_round_aux.
  pose proof (shr_fexp_nonneg m ex l H) as H1.
  destruct (shr_fexp p e m ex l) as [mrs' e'].
  simpl in H1.
  pose proof (shr_fexp_nonneg _ e' loc_Exact
                (round_nearest_even_nonneg _ (loc_of_shr_record mrs') H1)) as H2.
  destruct (shr_fexp p e (round_nearest_even (shr_m mrs') (loc_of_shr_record mrs')) e' loc_Exact)
    as [mrs'' e''].
  simpl in H2.
  destruct (shr_m mrs''); [reflexivity| |lia].
  destruct (e'' <=? e - p); reflexivity.
Qed.

End Rounding.

Lemma round_decimal_not_nan neg d k : is_nan (round_decimal neg d k) = false.
Proof.
  unfold round_decimal. destruct d as [|q|q]; try reflexivity.
  destruct (0 <=? k).
  - unfold binary_round.
    destruct (shl_align _ _ _) as [mz ez].
    apply binary_round_aux_not_nan. lia.
  - unfold SFdiv.
    destruct (SFdiv_core_binary _ _ _ _ _ _) as [[mz ez] lz] eqn:E.
    apply binary_round_aux_not_nan.
    unfold SFdiv_core_binary in E.
    set (m' := match _ with Z0 => _ | Zpos _ => _ | Zneg _ => _ end) in E.
    assert (Hm : 0 <= m').
    { subst m'. destruct (_ - _ - _); try lia. apply Z.shiftl_nonneg. lia. }
    pose proof (Z.div_pos m' (Z.pos (Z.to_pos (10 ^ (- k)))) Hm ltac:(lia)) as Hq.
    unfold Z.div in Hq.
    destruct (Z.div_eucl m' _) as [q0 r0].
    inversion E; subst. exact Hq.
Qed.

(** An integer needs no decimal rounding: it is read as the Number nearest
    to it. *)
Lemma round_integer z : 0 <= z -> round_decimal false z 0 = num_of_Z z.
Proof.
  intros Hz. destruct z as [|p|p]; [reflexivity| |lia].
  unfold round_decimal, num_of_Z, binary_normalize.
  change (0 <=? 0) with true. cbv iota.
  rewrite Z.pow_0_r, Z.mul_1_r. reflexivity.
Qed.

Lemma digit_or_zero_nonneg c : 0 <= digit_or_zero c.
Proof.
  unfold digit_or_zero, digit_of.
  destruct ((48 <=? c)%N && (c <=? 57)%N) eqn:D.
  { apply andb_true_iff in D. rewrite !N.leb_le in D. lia. }
  destruct ((97 <=? c)%N && (c <=? 122)%N) eqn:L.
  { apply andb_true_iff in L. rewrite !N.leb_le in L. lia. }
  destruct ((65 <=? c)%N && (c <=? 90)%N) eqn:U; [|lia].
  apply andb_true_iff in U. rewrite !N.leb_le in U. lia.
Qed.

Lemma radix_value_nonneg radix ds : 0 <= radix -> 0 <= radix_value radix ds.
Proof.
  intros Hr. unfold radix_value.
  assert (G : forall acc, 0 <= acc ->
                0 <= fold_left (fun a c => radix * a + digit_or_zero c) ds acc).
  { induction ds as [|c r IH]; intros acc Ha; simpl; [exact Ha|].
    apply IH. pose proof (digit_or_zero_nonneg c). nia. }
  apply G. lia.
Qed.

(** ** Scanning digits *)

Lemma digit_cases c : is_digit c = true ->
  (c = 48 \/ c = 49 \/ c = 50 \/ c = 51 \/ c = 52 \/ c = 53 \/ c = 54
   \/ c = 55 \/ c = 56 \/ c = 57)%N.
Proof.
  unfold is_digit. rewrite andb_true_iff, !N.leb_le. lia.
Qed.

Ltac digit_case c H :=
  apply digit_cases in H;
  repeat (destruct H as [H|H]; [subst c|]); try subst c.

Lemma digit_not_whitespace c : is_digit c = true -> is_whitespace c = false.
Proof. intros H. digit_case c H; reflexivity. Qed.

Lemma digit_radix_10 c : is_radix_digit 10 c = is_digit c.
Proof.
  unfold is_radix_digit, digit_of, is_digit.
  destruct ((48 <=? c)%N && (c <=? 57)%N) eqn:D.
  - apply andb_true_iff in D. rewrite !N.leb_le in D. apply Z.ltb_lt. lia.
  - destruct ((97 <=? c)%N && (c <=? 122)%N) eqn:L.
    + apply andb_true_iff in L. rewrite !N.leb_le in L. apply Z.ltb_ge. lia.
    + destruct ((65 <=? c)%N && (c <=? 90)%N) eqn:U; [|reflexivity].
      apply andb_true_iff in U. rewrite !N.leb_le in U. apply Z.ltb_ge. lia.
Qed.

Lemma span_app p a r :
  forallb p a = true ->
  match r with c :: _ => p c = false | [] => True end ->
  span p (a ++ r) = (a, r).
Proof.
  intros Ha Hr. induction a as [|c a IH]; simpl in *.
  - destruct r as [|c r]; simpl; [reflexivity|]. rewrite Hr. reflexivity.
  - apply andb_true_iff in Ha. destruct Ha as [Hc Ha].
    rewrite Hc, (IH Ha). reflexivity.
Qed.

Lemma span_ext p q s : (forall c, p c = q c) -> span p s = span q s.
Proof.
  intros H. induction s as [|c s IH]; simpl; [reflexivity|].
  rewrite H, IH. reflexivity.
Qed.

Lemma trimStart_id c r : is_whitespace c = false -> trimStart (c :: r) = c :: r.
Proof. intros H. simpl. rewrite H. reflexivity. Qed.

Lemma trimEnd_id s c : is_whitespace c = false -> trimEnd (s ++ [c]) = s ++ [c].
Proof.
  intros H. unfold trimEnd. rewrite rev_app_distr.
  change (rev [c] ++ rev s) with (c :: rev s).
  rewrite trimStart_id by exact H.
  change (c :: rev s) with ([c] ++ rev s).
  rewrite rev_app_distr, rev_involutive. reflexivity.
Qed.

(** ** Decimal integers: digits only *)

Section Integer.
Variable ds : jsstring.
Hypothesis ds_digits : forallb is_digit ds = true.
Hypothesis ds_nonempty : ds <> [].

Lemma integer_trim : trim ds = ds.
Proof.
  unfold trim.
  assert (S : trimStart ds = ds).
  { destruct ds as [|c r]; [contradiction|].
    simpl in ds_digits. apply andb_true_iff in ds_digits.
    apply trimStart_id, digit_not_whitespace, ds_digits. }
  rewrite S.
  destruct (exists_last ds_nonempty) as [ds' [c E]].
  rewrite E in *. apply trimEnd_id, digit_not_whitespace.
  rewrite forallb_app in ds_digits. apply andb_true_iff in ds_digits.
  destruct ds_digits as [_ H]. simpl in H. rewrite andb_true_r in H. exact H.
Qed.

Lemma integer_scan_sign : scan_sign ds = (false, ds).
Proof.
  destruct ds as [|c r]; [contradiction|].
  simpl in ds_digits. apply andb_true_iff in ds_digits.
  destruct ds_digits as [H _]. digit_case c H; reflexivity.
Qed.

Lemma integer_literal :
  scan_StrDecimalLiteral ds
  = Some (round_decimal false (digits_value ds) 0, []).
Proof.
  unfold scan_StrDecimalLiteral. rewrite integer_scan_sign.
  assert (NI : strip_prefix (lit "Infinity") ds = None).
  { destruct ds as [|c r]; [contradiction|].
    simpl in ds_digits. apply andb_true_iff in ds_digits.
    destruct ds_digits as [H _]. digit_case c H; reflexivity. }
  rewrite NI. unfold scan_decimal.
  rewrite <- (app_nil_r ds) at 1.
  rewrite span_app by (exact ds_digits || exact I).
  destruct ds; [contradiction|reflexivity].
Qed.

Lemma integer_no_prefix : strip_hex_prefix ds = (10, ds).
Proof.
  unfold strip_hex_prefix.
  destruct ds as [|i0 [|i1 r]]; [contradiction|reflexivity|].
  simpl in ds_digits. apply andb_true_iff in ds_digits.
  destruct ds_digits as [_ H]. apply andb_true_iff in H. destruct H as [H _].
  destruct (i0 =? 48)%N; [|reflexivity].
  digit_case i1 H; reflexivity.
Qed.

Lemma integer_StringToNumber :
  StringToNumber ds = round_decimal false (digits_value ds) 0.
Proof.
  unfold StringToNumber. rewrite integer_trim, integer_literal.
  destruct ds as [|i0 [|i1 r]]; [contradiction|reflexivity|].
  simpl in ds_digits. apply andb_true_iff in ds_digits.
  destruct ds_digits as [_ H]. apply andb_true_iff in H. destruct H as [H _].
  destruct (i0 =? 48)%N; [|reflexivity].
  digit_case i1 H; reflexivity.
Qed.

Lemma integer_parseInt :
  parseInt ds = round_decimal false (digits_value ds) 0.
Proof.
  unfold parseInt.
  assert (S : trimStart ds = ds).
  { destruct ds as [|c r]; [contradiction|].
    simpl in ds_digits. apply andb_true_iff in ds_digits.
    apply trimStart_id, digit_not_whitespace, ds_digits. }
  rewrite S, integer_scan_sign. cbv beta iota zeta.
  rewrite integer_no_prefix.
  rewrite (span_ext _ _ _ digit_radix_10).
  rewrite <- (app_nil_r ds) at 1.
  rewrite span_app by (exact ds_digits || exact I). cbn [fst].
  destruct ds; [contradiction|reflexivity].
Qed.

End Integer.

(** ** Signed decimals with a fraction, [-]digits.digits *)

Section Fraction.
Variables (neg : bool) (ip fp : jsstring).
Hypothesis ip_digits : forallb is_digit ip = true.
Hypothesis fp_digits : forallb is_digit fp = true.
Hypothesis ip_nonempty : ip <> [].
Hypothesis fp_nonempty : fp <> [].

Let id := decimal_fraction neg ip fp.

Lemma fraction_trimStart : trimStart id = id.
Proof.
  subst id. unfold decimal_fraction, sign_prefix.
  destruct neg; [reflexivity|].
  destruct ip as [|c r]; [contradiction|].
  simpl in ip_digits. apply andb_true_iff in ip_digits.
  apply trimStart_id, digit_not_whitespace, ip_digits.
Qed.

Lemma fraction_trim : trim id = id.
Proof.
  unfold trim. rewrite fraction_trimStart.
  subst id. unfold decimal_fraction.
  destruct (exists_last fp_nonempty) as [fp' [c E]].
  rewrite E in *. rewrite !app_assoc.
  apply trimEnd_id, digit_not_whitespace.
  rewrite forallb_app in fp_digits. apply andb_true_iff in fp_digits.
  destruct fp_digits as [_ H]. simpl in H. rewrite andb_true_r in H. exact H.
Qed.

Lemma fraction_scan_sign : scan_sign id = (neg, ip ++ lit "." ++ fp).
Proof.
  subst id. unfold decimal_fraction, sign_prefix.
  destruct neg; [reflexivity|].
  destruct ip as [|c r]; [contradiction|].
  simpl in ip_digits. apply andb_true_iff in ip_digits.
  destruct ip_digits as [H _]. digit_case c H; reflexivity.
Qed.

Lemma fraction_span : span is_digit (ip ++ lit "." ++ fp) = (ip, lit "." ++ fp).
Proof. apply span_app; [exact ip_digits|reflexivity]. Qed.

Lemma fraction_scan_decimal :
  scan_decimal (ip ++ lit "." ++ fp)
  = Some (digits_value (ip ++ fp), - len fp, []).
Proof.
  unfold scan_decimal. rewrite fraction_span.
  change (lit "." ++ fp) with (46%N :: fp). cbv beta iota.
  change (46 =? 46)%N with true. cbv iota.
  destruct ip as [|c r]; [contradiction|].
  rewrite <- (app_nil_r fp) at 1.
  rewrite span_app by (exact fp_digits || exact I).
  reflexivity.
Qed.

Lemma fraction_not_Infinity :
  strip_prefix (lit "Infinity") (ip ++ lit "." ++ fp) = None.
Proof.
  destruct ip as [|c r]; [contradiction|].
  simpl in ip_digits. apply andb_true_iff in ip_digits.
  destruct ip_digits as [H _]. digit_case c H; reflexivity.
Qed.

Lemma fraction_literal :
  scan_StrDecimalLiteral id
  = Some (round_decimal neg (digits_value (ip ++ fp)) (- len fp), []).
Proof.
  unfold scan_StrDecimalLiteral.
  rewrite fraction_scan_sign, fraction_not_Infinity, fraction_scan_decimal.
  reflexivity.
Qed.

Lemma fraction_StringToNumber :
  StringToNumber id
  = round_decimal neg (digits_value (ip ++ fp)) (- len fp).
Proof.
  unfold StringToNumber. rewrite fraction_trim, fraction_literal.
  subst id. unfold decimal_fraction, sign_prefix.
  destruct ip as [|i0 r]; [contradiction|].
  destruct neg; [reflexivity|].
  change ([] ++ (i0 :: r) ++ lit "." ++ fp) with (i0 :: r ++ 46%N :: fp).
  destruct r as [|i1 r]; simpl app.
  - destruct (i0 =? 48)%N; reflexivity.
  - simpl in ip_digits. apply andb_true_iff in ip_digits.
    destruct ip_digits as [_ H]. apply andb_true_iff in H.
    destruct H as [H _].
    destruct (i0 =? 48)%N; [|reflexivity].
    digit_case i1 H; reflexivity.
Qed.

Lemma fraction_parseInt :
  parseInt id = round_decimal neg (digits_value ip) 0.
Proof.
  unfold parseInt.
  rewrite fraction_trimStart, fraction_scan_sign.
  assert (R : strip_hex_prefix (ip ++ lit "." ++ fp)
              = (10, ip ++ lit "." ++ fp)).
  { unfold strip_hex_prefix.
    destruct ip as [|i0 r]; [contradiction|].
    change ((i0 :: r) ++ lit "." ++ fp) with (i0 :: r ++ 46%N :: fp).
    destruct r as [|i1 r]; simpl app.
    - destruct (i0 =? 48)%N; reflexivity.
    - simpl in ip_digits. apply andb_true_iff in ip_digits.
      destruct ip_digits as [_ H]. apply andb_true_iff in H.
      destruct H as [H _].
      destruct (i0 =? 48)%N; [|reflexivity].
      digit_case i1 H; reflexivity. }
  cbv beta iota zeta. rewrite R.
  rewrite (span_ext _ _ _ digit_radix_10), fraction_span. cbn [fst].
  destruct ip; [contradiction|reflexivity].
Qed.

End Fraction.

End JSFacts.

(* ================================================================== *)
(** * Facts about the routes *)
(* ================================================================== *)

Module ServerFacts.
Import JS Server.

Ltac run_route :=
  cbv beta iota zeta delta
    [run seq lift ret await bind
     get_produtos delete_produto post_produtos fst snd];
  cbn [app].

(** [DELETE]: the route as a function of the path parameter and of the
    store's answer. *)
Lemma run_delete (st : store) (id : jsstring) :
  run (delete_produto st id)
  = if is_nan (StringToNumber id) then (id_invalido, [])
    else (delete_outcome (st (excluir_query (parseInt id))),
          [excluir_query (parseInt id)]).
Proof.
  run_route. unfold isNaN, ToNumber, bind.
  destruct (is_nan (StringToNumber id)); reflexivity.
Qed.

Lemma run_get (st : store) :
  run (get_produtos st) = (get_outcome (st listar_query), [listar_query]).
Proof. reflexivity. Qed.

(** [POST]: a request with a falsy name or a falsy price stops at the first
    check. *)
Lemma run_post_missing (st : store) (req : body) :
  ToBoolean (body_nome req) = false \/ ToBoolean (body_preco req) = false ->
  run (post_produtos st req) = (campos_obrigatorios, []).
Proof.
  intros H. unfold post_produtos.
  assert (E : negb (ToBoolean (body_nome req))
              || negb (ToBoolean (body_preco req)) = true).
  { destruct H as [H|H]; rewrite H; simpl; auto using orb_true_r. }
  rewrite E. reflexivity.
Qed.

(** [POST]: a price that [ToNumber] maps to NaN or to a Number [<= 0] stops
    at the second check at the latest. *)
Lemma run_post_not_positive (st : store) (req : body) (x : number) :
  ToNumber (body_preco req) = Ok x ->
  is_nan x = true \/ num_leb x (zero false) = true ->
  run (post_produtos st req) = (campos_obrigatorios, [])
  \/ run (post_produtos st req) = (preco_invalido, []).
Proof.
  intros Hx H. unfold post_produtos.
  destruct (negb (ToBoolean (body_nome req))
            || negb (ToBoolean (body_preco req))); [left; reflexivity|].
  right. run_route. unfold isNaN, le_zero, bind. rewrite Hx.
  destruct (is_nan x) eqn:En; [reflexivity|].
  destruct H as [H|H]; [discriminate|]. rewrite H. reflexivity.
Qed.

(** [POST]: whatever the request, the store is called at most once, and
    only with an insert built from a string name that passed the first
    check, a price that passed both checks, and a description that is
    either falsy or a string. *)
Lemma post_log (st : store) (req : body) (q : query) :
  In q (snd (run (post_produtos st req))) ->
  exists s x p d,
    body_nome req = VStr s /\ s <> []
    /\ ToBoolean (body_preco req) = true
    /\ ToNumber (body_preco req) = Ok x
    /\ is_nan x = false /\ num_leb x (zero false) = false
    /\ parseFloat (body_preco req) = Ok p
    /\ (ToBoolean (body_descricao req) = false /\ d = None
        \/ exists t, body_descricao req = VStr t /\ t <> []
                     /\ d = Some (trim t))
    /\ q = inserir_query
             {| novo_nome := trim s; novo_preco := p; novo_descricao := d |}.
Proof.
  unfold post_produtos.
  destruct (ToBoolean (body_nome req)) eqn:Tn; [|intros []].
  destruct (ToBoolean (body_preco req)) eqn:Tp; [|intros []].
  cbn [negb orb]. run_route. unfold isNaN, le_zero, bind.
  destruct (ToNumber (body_preco req)) as [x|[m]] eqn:Ex; [|intros []].
  destruct (is_nan x) eqn:En; run_route; [intros []|].
  destruct (num_leb x (zero false)) eqn:El; run_route; [intros []|].
  destruct (body_nome req) as [| | | |s|] eqn:Hn;
    cbn [call_trim]; run_route; try (intros []; fail).
  destruct (parseFloat (body_preco req)) as [p|[m]] eqn:Ep;
    run_route; [|intros []].
  destruct (ToBoolean (body_descricao req)) eqn:Td; run_route.
  - destruct (body_descricao req) as [| | | |t|] eqn:Hd;
      cbn [call_trim]; run_route; try (intros []; fail).
    intros [<-|[]].
    exists s, x, p, (Some (trim t)).
    repeat split; try assumption; try reflexivity.
    + destruct s; [discriminate|congruence].
    + right. exists t. repeat split. destruct t; [discriminate|congruence].
  - intros [<-|[]].
    exists s, x, p, None.
    repeat split; try assumption; try reflexivity.
    + destruct s; [discriminate|congruence].
    + left. split; reflexivity.
Qed.

(** [POST]: and such a request does reach the store. *)
Lemma run_post_valid (st : store) (req : body) (s : jsstring) (x p : number) :
  body_nome req = VStr s -> s <> [] ->
  ToBoolean (body_preco req) = true ->
  ToNumber (body_preco req) = Ok x ->
  is_nan x = false -> num_leb x (zero false) = false ->
  parseFloat (body_preco req) = Ok p ->
  forall d,
    (ToBoolean (body_descricao req) = false /\ d = None
     \/ exists t, body_descricao req = VStr t /\ t <> [] /\ d = Some (trim t)) ->
    let q := inserir_query
               {| novo_nome := trim s; novo_preco := p; novo_descricao := d |} in
    run (post_produtos st req) = (post_outcome (st q), [q]).
Proof.
  intros Hn Hs Tp Ex En El Ep d Hd q. subst q.
  unfold post_produtos. rewrite Hn, Tp.
  replace (ToBoolean (VStr s)) with true by (destruct s; [contradiction|reflexivity]).
  cbn [negb orb]. run_route. unfold isNaN, le_zero, bind.
  rewrite Ex, En. run_route. rewrite El. run_route.
  cbn [call_trim]. run_route. rewrite Ep. run_route.
  destruct Hd as [[Td ->]|[t [Ht [Hne ->]]]].
  - rewrite Td. reflexivity.
  - rewrite Ht.
    replace (ToBoolean (VStr t)) with true by (destruct t; [contradiction|reflexivity]).
    reflexivity.
Qed.

(** ** Ordering *)

Section Order.
Variable key : produto -> Z.
Variable ascending : bool.

Let R (a b : produto) : Prop := before ascending (key a) (key b) = true.

Lemma before_total a b :
  before ascending a b = false -> before ascending b a = true.
Proof.
  unfold before. destruct ascending; rewrite Z.leb_gt, Z.leb_le; lia.
Qed.

Lemma insert_by_perm r l : Permutation (insert_by key ascending r l) (r :: l).
Proof.
  induction l as [|x xs IH]; simpl; [reflexivity|].
  destruct (before ascending (key r) (key x)); [reflexivity|].
  rewrite IH. apply perm_swap.
Qed.

Lemma order_perm t : Permutation (order key ascending t) t.
Proof.
  induction t as [|r t IH]; simpl; [reflexivity|].
  rewrite insert_by_perm. apply perm_skip, IH.
Qed.

Lemma insert_by_hd a r l :
  R a r -> HdRel R a l -> HdRel R a (insert_by key ascending r l).
Proof.
  intros Hr Hl. destruct l as [|x xs]; simpl.
  - constructor. exact Hr.
  - destruct (before ascending (key r) (key x)); constructor.
    + exact Hr.
    + inversion Hl; assumption.
Qed.

Lemma insert_by_sorted r l :
  Sorted R l -> Sorted R (insert_by key ascending r l).
Proof.
  induction 1 as [|x xs Hs IH Hh]; simpl.
  - repeat constructor.
  - destruct (before ascending (key r) (key x)) eqn:E.
    + constructor; [constructor; assumption|constructor; exact E].
    + constructor; [exact IH|].
      apply insert_by_hd; [|exact Hh]. apply before_total, E.
Qed.

Lemma order_sorted t : Sorted R (order key ascending t).
Proof.
  induction t as [|r t IH]; simpl; [constructor|].
  apply insert_by_sorted, IH.
Qed.

End Order.

Lemma order_newest_first (t : tabela) : newest_first (order created_at false t).
Proof.
  unfold newest_first.
  pose proof (order_sorted created_at false t) as H.
  induction H as [|x xs Hs IH Hh]; constructor; [exact IH|].
  destruct Hh as [|y ys Hy]; constructor.
  apply Z.leb_le. exact Hy.
Qed.

End ServerFacts.

(* ================================================================== *)
(** * The API service against its specification *)
(* ================================================================== *)

Module ServerSpec.
Import JS Server Inputs JSFacts ServerFacts.

(** C1. The create route on [{ nome: " ", preco: 5 }]: the name is a
    non-empty string, so the required-fields check lets it through; it is
    trimmed only when the row is built, and the store receives an insert
    whose [nome] is the empty string. The response is whatever the store
    makes of that insert. *)
Theorem create_blank_name_reaches_store (st : store) :
  let q := inserir_query {| novo_nome := []; novo_preco := num_of_Z 5;
                            novo_descricao := None |} in
  trim (lit " ") = []
  /\ run (post_produtos st blank_name) = (post_outcome (st q), [q]).
Proof. split; vm_compute; reflexivity. Qed.

(** The same route on [{ nome: "Pão", preco: "0x10" }]: [isNaN] and [<=] read
    the price as 16, [parseFloat] reads it as 0, and a row with price 0 is
    inserted. *)
Lemma create_hex_price_reaches_store (st : store) :
  let q := inserir_query {| novo_nome := lit "Pão"; novo_preco := zero false;
                            novo_descricao := None |} in
  ToNumber (body_preco hex_price) = Ok (num_of_Z 16)
  /\ run (post_produtos st hex_price) = (post_outcome (st q), [q]).
Proof. split; vm_compute; reflexivity. Qed.

(** What does hold of the create route: a falsy name, a falsy price, or a
    price that [ToNumber] maps to NaN or to a Number [<= 0], is answered with
    one of the two validation envelopes and the store is not called. *)
Lemma create_rejects_without_store_call (st : store) (req : body) (x : number) :
  ToBoolean (body_nome req) = false
  \/ ToBoolean (body_preco req) = false
  \/ (ToNumber (body_preco req) = Ok x
      /\ (is_nan x = true \/ num_leb x (zero false) = true)) ->
  snd (run (post_produtos st req)) = []
  /\ (fst (run (post_produtos st req)) = campos_obrigatorios
      \/ fst (run (post_produtos st req)) = preco_invalido).
Proof.
  intros [H|[H|[Hx H]]].
  - rewrite run_post_missing by (left; exact H).
    split; [reflexivity|left; reflexivity].
  - rewrite run_post_missing by (right; exact H).
    split; [reflexivity|left; reflexivity].
  - destruct (run_post_not_positive st req x Hx H) as [E|E]; rewrite E;
      (split; [reflexivity|]); [left|right]; reflexivity.
Qed.




(** C4. When the id passes validation and the store's delete matches no
    row, the response is the not-found envelope, with status 404 and not
    500, after a single store call. *)
Theorem delete_missing_is_not_found (st : store) (id : jsstring) :
  isNaN (VStr id) = Ok false ->
  st (excluir_query (parseInt id)) = Data [] ->
  run (delete_produto st id)
  = (nao_encontrado, [excluir_query (parseInt id)])
  /\ status nao_encontrado = 404
  /\ status (fst (run (delete_produto st id))) <> 500.
Proof.
  intros Hnum Hans. rewrite run_delete.
  unfold isNaN, ToNumber, bind in Hnum.
  destruct (is_nan (StringToNumber id)); [discriminate|].
  rewrite Hans. repeat split. discriminate.
Qed.

Lemma delete_missing_is_not_found_witness :
  run (delete_produto empty_store (lit "999"))
  = (nao_encontrado, [excluir_query (parseInt (lit "999"))])
  /\ status nao_encontrado = 404
  /\ status (fst (run (delete_produto empty_store (lit "999")))) <> 500.
Proof.
  apply (delete_missing_is_not_found empty_store (lit "999"));
    vm_compute; reflexivity.
Defined.

(** A name that is truthy but not a string has no [trim]: the exception is
    caught, the answer is 500 and the store is not called. *)
Example create_numeric_name_is_internal_error (st : store) :
  run (post_produtos st {| body_nome := VNum (num_of_Z 5);
                           body_preco := VNum (num_of_Z 5);
                           body_descricao := VUndefined |})
  = (failure 500 msg_erro_interno (Some (lit "nome.trim is not a function")),
     []).
Proof. vm_compute. reflexivity. Qed.

(** C3. A list request sends one query, all columns of [produtos] ordered
    by [created_at] descending. When the store holds the rows [t] and runs
    that query, the response has status 200, its data is a rearrangement of
    [t] with the newest rows first, and [total] is the number of rows
    returned. When the store answers with an error, the response is the 400
    envelope that carries the store's message. *)
Theorem list_returns_all_newest_first (st : store) :
  snd (run (get_produtos st)) = [Select "produtos" "*" "created_at" false]
  /\ (forall t, runs_order st t ->
      exists rows,
        fst (run (get_produtos st))
        = {| status := 200; success := true; message := None;
             data := Rows rows; total := Some (Z.of_nat (List.length rows));
             error := None |}
        /\ Permutation rows t /\ newest_first rows)
  /\ (forall m, st listar_query = Error m ->
      fst (run (get_produtos st))
      = {| status := 400; success := false;
           message := Some (lit "Erro ao buscar produtos");
           data := NoData; total := None; error := Some m |}).
Proof.
  rewrite run_get. cbn [fst snd]. split; [reflexivity|]. split.
  - intros t Ht. exists (order created_at false t).
    unfold listar_query. rewrite (Ht false).
    split; [reflexivity|]. split.
    + apply order_perm.
    + apply order_newest_first.
  - intros m ->. reflexivity.
Qed.

Lemma list_returns_all_newest_first_witness :
  (exists rows,
      data (fst (run (get_produtos two_rows))) = Rows rows
      /\ Permutation rows [bolo; broa] /\ newest_first rows)
  /\ status (fst (run (get_produtos failing_store))) = 400.
Proof.
  split.
  - destruct (list_returns_all_newest_first two_rows) as [_ [H _]].
    destruct (H [bolo; broa]) as [rows [E [P N]]].
    + intros ascending. reflexivity.
    + exists rows. rewrite E. auto.
  - destruct (list_returns_all_newest_first failing_store) as [_ [_ H]].
    rewrite (H (lit "connection refused") eq_refl). reflexivity.
Defined.

(** C5. On [{ nome: "Pão", preco: "5.50" }] the store receives one insert
    whose [preco] is the Number 5.5 (half of 11), with the name unchanged
    and a null description. When the store answers with rows, the response
    has status 201 and its data is the first of them, the record the store
    created; when it answers with no row there is no data; when it rejects
    the insert the response is the 400 envelope with the store's message. *)
Theorem create_pao_coerces_price (st : store) :
  let q := Insert "produtos"
             [{| novo_nome := lit "Pão"; novo_preco := five_and_a_half;
                 novo_descricao := None |}] in
  parseFloat (VStr (lit "5.50")) = Ok five_and_a_half
  /\ SFmul prec emax five_and_a_half (num_of_Z 2) = num_of_Z 11
  /\ snd (run (post_produtos st pao)) = [q]
  /\ fst (run (post_produtos st pao))
     = match st q with
       | Data (r :: _) =>
         {| status := 201; success := true;
            message := Some (lit "Produto cadastrado com sucesso!");
            data := Row r; total := None; error := None |}
       | Data [] =>
         {| status := 201; success := true;
            message := Some (lit "Produto cadastrado com sucesso!");
            data := NoData; total := None; error := None |}
       | Error m =>
         {| status := 400; success := false;
            message := Some (lit "Erro ao cadastrar produto");
            data := NoData; total := None; error := Some m |}
       end.
Proof.
  repeat split; try (vm_compute; reflexivity).
  vm_compute. destruct (st _) as [[|r rs]|m]; reflexivity.
Qed.

(** C8, as amended. For an id written as digits, a point and digits, with
    or without a minus sign, the [isNaN] check passes and the only store
    call is a delete whose key is [parseInt] of the id: the Number of the
    digits before the point, with the sign of the id. Without a sign that
    is the Number nearest to the integer those digits write: ["7.9"] is
    keyed by 7. *)
Theorem delete_fractional_id_truncates
        (st : store) (neg : bool) (ip fp : jsstring) :
  forallb is_digit ip = true -> forallb is_digit fp = true ->
  ip <> [] -> fp <> [] ->
  let id := decimal_fraction neg ip fp in
  let key := round_decimal neg (digits_value ip) 0 in
  isNaN (VStr id) = Ok false
  /\ parseInt id = key
  /\ run (delete_produto st id)
     = (delete_outcome (st (Delete "produtos" "id" key)),
        [Delete "produtos" "id" key])
  /\ (neg = false -> key = num_of_Z (digits_value ip)).
Proof.
  intros Hi Hf Ni Nf id key.
  assert (Hnan : is_nan (StringToNumber id) = false).
  { subst id. rewrite fraction_StringToNumber by assumption.
    apply round_decimal_not_nan. }
  assert (Hkey : parseInt id = key).
  { subst id key. apply fraction_parseInt; assumption. }
  split; [|split; [|split]].
  - unfold isNaN, ToNumber, bind. rewrite Hnan. reflexivity.
  - exact Hkey.
  - rewrite run_delete, Hnan, Hkey. reflexivity.
  - intros ->. subst key. apply round_integer, radix_value_nonneg. lia.
Qed.

Lemma delete_fractional_id_truncates_witness :
  decimal_fraction false (lit "7") (lit "9") = lit "7.9"
  /\ run (delete_produto empty_store (lit "7.9"))
     = (nao_encontrado,
        [Delete "produtos" "id" (S754_finite false 7881299347898368 (-50))]).
Proof.
  split; [vm_compute; reflexivity|].
  assert (D7 : forallb is_digit (lit "7") = true) by (vm_compute; reflexivity).
  assert (D9 : forallb is_digit (lit "9") = true) by (vm_compute; reflexivity).
  assert (N7 : lit "7" <> []) by (vm_compute; discriminate).
  assert (N9 : lit "9" <> []) by (vm_compute; discriminate).
  destruct (delete_fractional_id_truncates empty_store false
              (lit "7") (lit "9") D7 D9 N7 N9) as [_ [_ [R K]]].
  etransitivity; [exact R|]. rewrite (K eq_refl). vm_compute. reflexivity.
Defined.

(** C8 as it was stated fails: the id [".9"] is numeric with a fractional
    part, the Number 0.9, and passes the check, yet it is keyed by NaN, not
    by the truncation 0; the id ["7.9e1"] is the Number 79 and is keyed by
    7. *)
Lemma delete_fraction_is_not_always_truncated :
  StringToNumber (lit ".9") = S754_finite false 8106479329266893 (-53)
  /\ isNaN (VStr (lit ".9")) = Ok false
  /\ snd (run (delete_produto empty_store (lit ".9")))
     = [Delete "produtos" "id" NaN]
  /\ snd (run (delete_produto empty_store (lit ".9")))
     <> [Delete "produtos" "id" (zero false)]
  /\ StringToNumber (lit "7.9e1") = num_of_Z 79
  /\ snd (run (delete_produto empty_store (lit "7.9e1")))
     = [Delete "produtos" "id" (S754_finite false 7881299347898368 (-50))]
  /\ snd (run (delete_produto empty_store (lit "7.9e1")))
     <> [Delete "produtos" "id" (num_of_Z 79)].
Proof.
  repeat split; try (vm_compute; reflexivity); vm_compute; discriminate.
Qed.

(** C9. When the price is falsy, as the Number 0 and the empty string are,
    the create route answers with the required-fields envelope, whose
    message differs from the one of the positive-price check, and does not
    call the store. *)
Theorem falsy_price_reports_missing_fields (st : store) (req : body) :
  ToBoolean (body_preco req) = false ->
  run (post_produtos st req) = (campos_obrigatorios, [])
  /\ status campos_obrigatorios = 400
  /\ message campos_obrigatorios = Some (lit "Nome e preço são obrigatórios")
  /\ message campos_obrigatorios <> message preco_invalido.
Proof.
  intros H. rewrite run_post_missing by (right; exact H).
  repeat split. intros E. vm_compute in E. discriminate.
Qed.

Lemma falsy_price_reports_missing_fields_witness :
  ToBoolean (VNum (zero false)) = false
  /\ ToBoolean (VStr (lit "")) = false
  /\ fst (run (post_produtos empty_store
                 {| body_nome := VStr (lit "Pão");
                    body_preco := VNum (zero false);
                    body_descricao := VUndefined |})) = campos_obrigatorios
  /\ fst (run (post_produtos empty_store
                 {| body_nome := VStr (lit "Pão");
                    body_preco := VStr (lit "");
                    body_descricao := VUndefined |})) = campos_obrigatorios.
Proof.
  split; [reflexivity|]. split; [reflexivity|]. split.
  - apply (f_equal fst
             (proj1 (falsy_price_reports_missing_fields empty_store
                       {| body_nome := VStr (lit "Pão");
                          body_preco := VNum (zero false);
                          body_descricao := VUndefined |} eq_refl))).
  - apply (f_equal fst
             (proj1 (falsy_price_reports_missing_fields empty_store
                       {| body_nome := VStr (lit "Pão");
                          body_preco := VStr (lit "");
                          body_descricao := VUndefined |} eq_refl))).
Defined.

End ServerSpec.

(* ================================================================== *)
(** * Facts about the script *)
(* ================================================================== *)

Module ClientFacts.
Import JS Client JSFacts.

Lemma requests_app (a b : list efeito) :
  requests (a ++ b) = requests a ++ requests b.
Proof. apply flat_map_app. Qed.

Section Script.
Variable rede : list efeito -> request -> fetched.

(** A refresh always starts with the list request, and the cache afterwards
    is what that request returned, or the old cache when it failed. *)
Lemma buscar_refetches (c : client) :
  exists rest,
    efeitos (buscarProdutos rede c) = efeitos c ++ Fetch listar :: rest
    /\ requests rest = []
    /\ produtos (buscarProdutos rede c)
       = match rede (efeitos c) listar with
         | Response true b =>
           match resp_data b with Some ps => ps | None => [] end
         | _ => produtos c
         end.
Proof.
  unfold buscarProdutos, fetch.
  destruct (rede (efeitos c) listar) as [[|] b|m].
  - unfold renderizarProdutos, set_produtos, emit. cbn [produtos efeitos].
    destruct (resp_data b) as [[|p ps]|]; cbn [efeitos produtos];
      rewrite <- app_assoc; eexists; repeat split.
  - unfold mostrarNotificacao, emit. cbn [produtos efeitos].
    rewrite <- !app_assoc. eexists; repeat split.
  - unfold mostrarNotificacao, emit. cbn [produtos efeitos].
    rewrite <- !app_assoc. eexists; repeat split.
Qed.

(** [excluirProduto]: the first effect is the delete request for the id it
    was given. *)
Lemma excluir_starts_with_delete (id : option Z) (c : client) :
  exists rest,
    efeitos (excluirProduto rede id c) = efeitos c ++ Fetch (excluir id) :: rest.
Proof.
  unfold excluirProduto, fetch.
  destruct (rede (efeitos c) (excluir id)) as [[|] b|m].
  - destruct (buscar_refetches
                (mostrarNotificacao
                   (lit "Produto excluído com sucesso!") sucesso
                   (emit (Fetch (excluir id)) c))) as [rest [E _]].
    rewrite E. unfold mostrarNotificacao, emit. cbn [efeitos].
    rewrite <- !app_assoc. eexists. reflexivity.
  - unfold mostrarNotificacao, emit. cbn [efeitos].
    rewrite <- !app_assoc. eexists. reflexivity.
  - unfold mostrarNotificacao, emit. cbn [efeitos].
    rewrite <- !app_assoc. eexists. reflexivity.
Qed.

(** [excluirProduto] on success: the delete request, one notification, then
    the list request; the cache is replaced by what the list returns. *)
Lemma excluir_refetches (id : option Z) (c : client) (b : resposta) :
  rede (efeitos c) (excluir id) = Response true b ->
  exists m rest,
    efeitos (excluirProduto rede id c)
    = efeitos c ++ Fetch (excluir id) :: Notificacao m sucesso
                :: Fetch listar :: rest
    /\ requests rest = [].
Proof.
  intros H. unfold excluirProduto, fetch. rewrite H.
  destruct (buscar_refetches
              (mostrarNotificacao
                 (lit "Produto excluído com sucesso!") sucesso
                 (emit (Fetch (excluir id)) c))) as [rest [E [R _]]].
  rewrite E. unfold mostrarNotificacao, emit. cbn [efeitos].
  rewrite <- !app_assoc. exists (lit "Produto excluído com sucesso!"), rest.
  split; [reflexivity|exact R].
Qed.

(** [cadastrarProduto]: the first effect is the create request; on success
    it is followed by a notification, the form reset and the list request,
    and the cache is what the list request returned, never the old cache
    with the new record added. *)
Lemma cadastrar_starts_with_post (dados : dados_produto) (c : client) :
  exists rest,
    efeitos (cadastrarProduto rede dados c)
    = efeitos c ++ Fetch (cadastrar dados) :: rest.
Proof.
  unfold cadastrarProduto, fetch.
  destruct (rede (efeitos c) (cadastrar dados)) as [[|] b|m].
  - match goal with |- context [buscarProdutos rede ?x] =>
      destruct (buscar_refetches x) as [rest [E _]] end.
    rewrite E. unfold mostrarNotificacao, emit. cbn [efeitos].
    rewrite <- !app_assoc. eexists. reflexivity.
  - unfold mostrarNotificacao, emit. cbn [efeitos].
    rewrite <- !app_assoc. eexists. reflexivity.
  - unfold mostrarNotificacao, emit. cbn [efeitos].
    rewrite <- !app_assoc. eexists. reflexivity.
Qed.

Lemma cadastrar_refetches (dados : dados_produto) (c : client) (b : resposta) :
  rede (efeitos c) (cadastrar dados) = Response true b ->
  exists m rest,
    let c1 := emit FormReset
                (mostrarNotificacao m sucesso (emit (Fetch (cadastrar dados)) c)) in
    efeitos (cadastrarProduto rede dados c)
    = efeitos c ++ Fetch (cadastrar dados) :: Notificacao m sucesso
                :: FormReset :: Fetch listar :: rest
    /\ requests rest = []
    /\ produtos (cadastrarProduto rede dados c)
       = match rede (efeitos c1) listar with
         | Response true b' =>
           match resp_data b' with Some ps => ps | None => [] end
         | _ => produtos c
         end.
Proof.
  intros H. unfold cadastrarProduto, fetch. rewrite H.
  match goal with |- context [buscarProdutos rede ?x] =>
    destruct (buscar_refetches x) as [rest [E [R P]]] end.
  exists (lit "Produto cadastrado com sucesso!"), rest.
  cbv zeta. rewrite E, P. unfold mostrarNotificacao, emit. cbn [efeitos produtos].
  rewrite <- !app_assoc. repeat split. exact R.
Qed.

End Script.

End ClientFacts.

(* ================================================================== *)
(** * The client application against its specification *)
(* ================================================================== *)

Module ClientSpec.
Import JS Client Inputs JSFacts ClientFacts.

(** C6. When the name field is empty after trimming, or the price field
    does not parse to a Number greater than zero, submitting the form adds
    exactly an error notification and a focus change to the effects of the
    page: no request is sent and the cache is untouched. *)
Theorem submit_invalid_issues_no_request
        (rede : list efeito -> request -> fetched)
        (nome preco descricao : jsstring) (c : client) :
  trim nome = [] \/ num_ltb (zero false) (parseFloat_string preco) = false ->
  (exists m campo,
      efeitos (submit rede nome preco descricao c)
      = efeitos c ++ [Notificacao m erro; Focus campo])
  /\ requests (efeitos (submit rede nome preco descricao c))
     = requests (efeitos c)
  /\ produtos (submit rede nome preco descricao c) = produtos c.
Proof.
  intros H. unfold submit, form_dados.
  cbn [dados_nome dados_preco dados_descricao].
  assert (Shape : forall m campo,
    (exists m' campo',
        efeitos (emit (Focus campo) (mostrarNotificacao m erro c))
        = efeitos c ++ [Notificacao m' erro; Focus campo'])
    /\ requests (efeitos (emit (Focus campo) (mostrarNotificacao m erro c)))
       = requests (efeitos c)
    /\ produtos (emit (Focus campo) (mostrarNotificacao m erro c))
       = produtos c).
  { intros m campo. unfold mostrarNotificacao, emit. cbn [efeitos produtos].
    rewrite <- app_assoc. split; [|split].
    - exists m, campo. reflexivity.
    - rewrite requests_app. cbn. apply app_nil_r.
    - reflexivity. }
  destruct (ToBoolean (VStr (trim nome))) eqn:Tn; cbn [negb].
  - rewrite not_positive.
    destruct H as [H|H].
    + rewrite H in Tn. discriminate.
    + rewrite H. cbn [negb]. apply Shape.
  - apply Shape.
Qed.

Lemma submit_invalid_issues_no_request_witness :
  requests (efeitos (submit always_ok (lit "Bolo") (lit "abc") (lit "") fresh))
  = []
  /\ requests (efeitos (submit always_ok (lit "   ") (lit "5") (lit "") fresh))
     = [].
Proof.
  split.
  - apply (submit_invalid_issues_no_request
             always_ok (lit "Bolo") (lit "abc") (lit "") fresh).
    right. vm_compute. reflexivity.
  - apply (submit_invalid_issues_no_request
             always_ok (lit "   ") (lit "5") (lit "") fresh).
    left. vm_compute. reflexivity.
Defined.

(** C7. Confirming the deletion of id 7: [executarExclusao] closes the modal
    first, which clears the pending id, and only then reads it for the
    request. The first effect is therefore a DELETE of
    [/api/produtos/null], whatever the network answers; the service rejects
    that id at validation and deletes nothing. *)
Theorem confirmed_delete_requests_null
        (rede : list efeito -> request -> fetched)
        (nome : jsstring) (c : client) (st : Server.store) :
  (exists rest,
      efeitos (executarExclusao rede (confirmarExclusao 7 nome c))
      = efeitos c
        ++ Fetch {| req_method := DELETE;
                    req_url := lit "http://localhost:3000/api/produtos/null";
                    req_body := None |} :: rest)
  /\ excluir_url (Some 7) = lit "http://localhost:3000/api/produtos/7"
  /\ Server.run (Server.delete_produto st (lit "null"))
     = (Server.id_invalido, []).
Proof.
  split; [|split].
  - unfold executarExclusao. cbn [pendente confirmarExclusao produtoParaExcluir].
    change (negb (7 =? 0)) with true. cbv iota.
    cbn [cancelarExclusao produtoParaExcluir].
    match goal with |- context [excluirProduto rede None ?x] =>
      destruct (excluir_starts_with_delete rede None x) as [rest E] end.
    exists rest. rewrite E. reflexivity.
  - vm_compute. reflexivity.
  - vm_compute. reflexivity.
Qed.

(** C10, as amended. A create request with a non-empty string name and a
    price that passes both checks sends exactly one insert: its description
    is null when the supplied one is falsy, and the trimmed text when the
    supplied one is a non-empty string. No other insert is ever sent: any
    row the route sends comes from a description that is falsy or a
    non-empty string. On the client, a submission that passes the two
    checks sends, right after the loading state is switched on, a POST whose
    body has the trimmed name, the parsed price, and a description that is
    null when the field is empty after trimming and the trimmed field
    otherwise. *)
Theorem descricao_null_or_trimmed :
  (forall (st : Server.store) (req : Server.body) (s : jsstring)
          (x p : number),
      Server.body_nome req = VStr s -> s <> [] ->
      ToBoolean (Server.body_preco req) = true ->
      ToNumber (Server.body_preco req) = Ok x ->
      is_nan x = false -> num_leb x (zero false) = false ->
      parseFloat (Server.body_preco req) = Ok p ->
      (ToBoolean (Server.body_descricao req) = false ->
       snd (Server.run (Server.post_produtos st req))
       = [Server.Insert "produtos"
            [{| Server.novo_nome := trim s; Server.novo_preco := p;
                Server.novo_descricao := None |}]])
      /\ (forall t, Server.body_descricao req = VStr t -> t <> [] ->
          snd (Server.run (Server.post_produtos st req))
          = [Server.Insert "produtos"
               [{| Server.novo_nome := trim s; Server.novo_preco := p;
                   Server.novo_descricao := Some (trim t) |}]]))
  /\ (forall (st : Server.store) (req : Server.body) (n : Server.novo_produto),
      In (Server.Insert "produtos" [n])
         (snd (Server.run (Server.post_produtos st req))) ->
      (ToBoolean (Server.body_descricao req) = false
       /\ Server.novo_descricao n = None)
      \/ (exists t, Server.body_descricao req = VStr t /\ t <> []
                    /\ Server.novo_descricao n = Some (trim t)))
  /\ (forall (rede : list efeito -> request -> fetched)
             (nome preco descricao : jsstring) (c : client),
      trim nome <> [] ->
      num_ltb (zero false) (parseFloat_string preco) = true ->
      exists rest,
        efeitos (submit rede nome preco descricao c)
        = efeitos c
          ++ LoadingCadastro true
          :: Fetch {| req_method := POST;
                      req_url := lit "http://localhost:3000/api/produtos";
                      req_body :=
                        Some {| dados_nome := trim nome;
                                dados_preco := parseFloat_string preco;
                                dados_descricao :=
                                  match trim descricao with
                                  | [] => None
                                  | d => Some d
                                  end |} |}
          :: rest).
Proof.
  split; [|split].
  - intros st req s x p Hn Hs Tp Ex En El Ep. split.
    + intros Td.
      rewrite (ServerFacts.run_post_valid st req s x p Hn Hs Tp Ex En El Ep
                 None (or_introl (conj Td eq_refl))).
      reflexivity.
    + intros t Ht Hne.
      rewrite (ServerFacts.run_post_valid st req s x p Hn Hs Tp Ex En El Ep
                 (Some (trim t))
                 (or_intror (ex_intro _ t (conj Ht (conj Hne eq_refl))))).
      reflexivity.
  - intros st req n H.
    destruct (ServerFacts.post_log st req _ H)
      as [s [x [p [d [_ [_ [_ [_ [_ [_ [_ [Hd Hq]]]]]]]]]]]].
    injection Hq as ->. exact Hd.
  - intros rede nome preco descricao c Hn Hp.
    unfold submit. cbn [dados_nome dados_preco form_dados].
    replace (ToBoolean (VStr (trim nome))) with true
      by (destruct (trim nome); [contradiction|reflexivity]).
    cbn [negb]. rewrite not_positive, Hp. cbn [negb].
    unfold emit at 1. cbn [efeitos].
    match goal with |- context [cadastrarProduto rede ?d ?x] =>
      destruct (cadastrar_starts_with_post rede d x) as [rest E] end.
    rewrite E. unfold emit. cbn [efeitos].
    rewrite <- !app_assoc. eexists. reflexivity.
Qed.

Lemma descricao_null_or_trimmed_witness :
  snd (Server.run (Server.post_produtos empty_store pao_de_queijo))
  = [Server.Insert "produtos"
       [{| Server.novo_nome := lit "Pão";
           Server.novo_preco := S754_finite false 5629499534213120 (-50);
           Server.novo_descricao := Some (lit "de queijo") |}]]
  /\ snd (Server.run (Server.post_produtos empty_store pao))
     = [Server.Insert "produtos"
          [{| Server.novo_nome := lit "Pão";
              Server.novo_preco := S754_finite false 6192449487634432 (-50);
              Server.novo_descricao := None |}]]
  /\ (exists rest,
        efeitos (submit always_ok (lit "Bolo") (lit "12") (lit "  ") fresh)
        = LoadingCadastro true
          :: Fetch (cadastrar {| dados_nome := lit "Bolo";
                                 dados_preco := num_of_Z 12;
                                 dados_descricao := None |})
          :: rest).
Proof.
  destruct descricao_null_or_trimmed as [Sends [_ Form]].
  split; [|split].
  - etransitivity.
    + apply (proj2 (Sends empty_store pao_de_queijo (lit "Pão")
                      (num_of_Z 5) (num_of_Z 5)
                      eq_refl ltac:(vm_compute; discriminate)
                      eq_refl eq_refl eq_refl eq_refl eq_refl)
                   (lit "  de queijo ") eq_refl
                   ltac:(vm_compute; discriminate)).
    + vm_compute. reflexivity.
  - etransitivity.
    + apply (proj1 (Sends empty_store pao (lit "Pão")
                      (StringToNumber (lit "5.50"))
                      (parseFloat_string (lit "5.50"))
                      eq_refl ltac:(vm_compute; discriminate)
                      eq_refl eq_refl
                      ltac:(vm_compute; reflexivity)
                      ltac:(vm_compute; reflexivity) eq_refl)
                   eq_refl).
    + vm_compute. reflexivity.
  - destruct (Form always_ok (lit "Bolo") (lit "12") (lit "  ") fresh)
      as [rest E].
    + vm_compute. discriminate.
    + vm_compute. reflexivity.
    + exists rest. rewrite E. vm_compute. reflexivity.
Defined.

(** C10 as it was stated fails: [{ nome: "Pão", preco: 5, descricao: 1 }]
    passes both checks and its description is truthy, yet no record is
    sent: a Number has no [trim], and the route answers 500. *)
Lemma create_numeric_description_sends_nothing :
  ToBoolean (Server.body_nome Wiring.numeric_description) = true
  /\ ToBoolean (Server.body_preco Wiring.numeric_description) = true
  /\ isNaN (Server.body_preco Wiring.numeric_description) = Ok false
  /\ le_zero (Server.body_preco Wiring.numeric_description) = Ok false
  /\ ToBoolean (Server.body_descricao Wiring.numeric_description) = true
  /\ Server.run (Server.post_produtos empty_store Wiring.numeric_description)
     = ({| Server.status := 500; Server.success := false;
           Server.message := Some (lit "Erro interno do servidor");
           Server.data := Server.NoData; Server.total := None;
           Server.error := Some (lit "descricao.trim is not a function") |},
        []).
Proof. repeat split; vm_compute; reflexivity. Qed.

End ClientSpec.

(* ================================================================== *)
(** * More facts about the primitives *)
(* ================================================================== *)

Module JSMore.
Import JS Wiring JSFacts.

(** ** [trim] *)

Lemma trimStart_blank s : blank s = true -> trimStart s = [].
Proof.
  induction s as [|c r IH]; simpl; [reflexivity|].
  intros H. apply andb_true_iff in H. destruct H as [Hc Hr].
  rewrite Hc. apply IH, Hr.
Qed.

Lemma trim_blank s : blank s = true -> trim s = [].
Proof. intros H. unfold trim. rewrite (trimStart_blank s H). reflexivity. Qed.

Lemma trimStart_starts_clean s : starts_clean (trimStart s) = true.
Proof.
  induction s as [|c r IH]; simpl; [reflexivity|].
  destruct (is_whitespace c) eqn:E; [exact IH|].
  simpl. rewrite E. reflexivity.
Qed.

Lemma trimStart_clean s : starts_clean s = true -> trimStart s = s.
Proof.
  destruct s as [|c r]; simpl; [reflexivity|].
  intros H. apply negb_true_iff in H. rewrite H. reflexivity.
Qed.

Lemma trimStart_snoc a c :
  is_whitespace c = false -> trimStart (a ++ [c]) = trimStart a ++ [c].
Proof.
  intros H. induction a as [|x a IH]; simpl.
  - rewrite H. reflexivity.
  - destruct (is_whitespace x); [exact IH|reflexivity].
Qed.

Lemma trimEnd_cons c r :
  is_whitespace c = false -> trimEnd (c :: r) = c :: trimEnd r.
Proof.
  intros H. unfold trimEnd. simpl rev.
  rewrite trimStart_snoc by exact H.
  rewrite rev_app_distr. reflexivity.
Qed.

(** What [trim] returns has no white space at either end. *)
Lemma trim_outer_clean s : outer_clean (trim s) = true.
Proof.
  unfold outer_clean, trim. apply andb_true_iff. split.
  - pose proof (trimStart_starts_clean s) as H.
    destruct (trimStart s) as [|c r]; [reflexivity|].
    simpl in H. apply negb_true_iff in H.
    rewrite trimEnd_cons by exact H. simpl. rewrite H. reflexivity.
  - unfold trimEnd. rewrite rev_involutive. apply trimStart_starts_clean.
Qed.

Lemma trim_clean s : outer_clean s = true -> trim s = s.
Proof.
  unfold outer_clean. intros H. apply andb_true_iff in H. destruct H as [H1 H2].
  unfold trim. rewrite (trimStart_clean s H1).
  unfold trimEnd. rewrite (trimStart_clean _ H2). apply rev_involutive.
Qed.

Lemma trim_idempotent s : trim (trim s) = trim s.
Proof. apply trim_clean, trim_outer_clean. Qed.

(** ** The sign of a rounded decimal *)

Lemma binary_round_aux_sign p e s m ex l :
  0 <= m -> has_sign s (binary_round_aux p e s m ex l).
Proof.
  intros H. unfold binary_round_aux.
  pose proof (shr_fexp_nonneg p e m ex l H) as H1.
  destruct (shr_fexp p e m ex l) as [mrs' e'].
  simpl in H1.
  pose proof (shr_fexp_nonneg p e _ e' loc_Exact
                (round_nearest_even_nonneg _ (loc_of_shr_record mrs') H1)) as H2.
  destruct (shr_fexp p e (round_nearest_even (shr_m mrs') (loc_of_shr_record mrs')) e' loc_Exact)
    as [mrs'' e''].
  simpl in H2.
  destruct (shr_m mrs''); [reflexivity| |lia].
  destruct (e'' <=? e - p); reflexivity.
Qed.

Lemma round_decimal_sign neg d k : has_sign neg (round_decimal neg d k).
Proof.
  unfold round_decimal. destruct d as [|q|q]; try reflexivity.
  destruct (0 <=? k).
  - unfold binary_round.
    destruct (shl_align _ _ _) as [mz ez].
    apply binary_round_aux_sign. lia.
  - unfold SFdiv.
    destruct (SFdiv_core_binary _ _ _ _ _ _) as [[mz ez] lz] eqn:E.
    rewrite xorb_false_r.
    apply binary_round_aux_sign.
    unfold SFdiv_core_binary in E.
    set (m' := match _ with Z0 => _ | Zpos _ => _ | Zneg _ => _ end) in E.
    assert (Hm : 0 <= m').
    { subst m'. destruct (_ - _ - _); try lia. apply Z.shiftl_nonneg. lia. }
    pose proof (Z.div_pos m' (Z.pos (Z.to_pos (10 ^ (- k)))) Hm ltac:(lia)) as Hq.
    unfold Z.div in Hq.
    destruct (Z.div_eucl m' _) as [q0 r0].
    inversion E; subst. exact Hq.
Qed.

(** A decimal written with a minus sign is never greater than zero. *)
Lemma negative_le_zero x : has_sign true x -> num_leb x (zero false) = true.
Proof. destruct x as [s|s| |s m e]; simpl; intros H; try subst s; try reflexivity; contradiction. Qed.

(** A decimal written without a sign is [<= 0] only when it rounds to zero. *)
Lemma positive_le_zero x :
  has_sign false x -> num_leb x (zero false) = is_zero x.
Proof. destruct x as [s|s| |s m e]; simpl; intros H; try subst s; try reflexivity; contradiction. Qed.

Lemma has_sign_not_nan neg x : has_sign neg x -> is_nan x = false.
Proof. destruct x; simpl; intros H; [reflexivity|reflexivity|contradiction|reflexivity]. Qed.

(** ** Where [parseFloat] and [ToNumber] agree *)

Lemma fraction_parseFloat neg ip fp :
  forallb is_digit ip = true -> forallb is_digit fp = true ->
  ip <> [] -> fp <> [] ->
  parseFloat_string (decimal_fraction neg ip fp)
  = StringToNumber (decimal_fraction neg ip fp).
Proof.
  intros Hi Hf Ni Nf. unfold parseFloat_string.
  rewrite fraction_trimStart, fraction_literal, fraction_StringToNumber
    by assumption.
  reflexivity.
Qed.

Lemma integer_parseFloat ds :
  forallb is_digit ds = true -> ds <> [] ->
  parseFloat_string ds = StringToNumber ds.
Proof.
  intros Hd Hn. unfold parseFloat_string.
  assert (S : trimStart ds = ds).
  { destruct ds as [|c r]; [contradiction|].
    simpl in Hd. apply andb_true_iff in Hd.
    apply trimStart_id, digit_not_whitespace, Hd. }
  rewrite S, integer_literal, integer_StringToNumber by assumption.
  reflexivity.
Qed.

(** ** White space where a number is expected *)

Lemma blank_StringToNumber s : blank s = true -> StringToNumber s = zero false.
Proof. intros H. unfold StringToNumber. rewrite (trim_blank s H). reflexivity. Qed.

Lemma blank_parseInt s : blank s = true -> parseInt s = NaN.
Proof. intros H. unfold parseInt. rewrite (trimStart_blank s H). reflexivity. Qed.

Lemma blank_parseFloat s : blank s = true -> parseFloat_string s = NaN.
Proof.
  intros H. unfold parseFloat_string. rewrite (trimStart_blank s H).
  reflexivity.
Qed.

(** ** Digits, [e], digits *)

Section Exponent.
Variables ip ex : jsstring.
Hypothesis ip_digits : forallb is_digit ip = true.
Hypothesis ex_digits : forallb is_digit ex = true.
Hypothesis ip_nonempty : ip <> [].
Hypothesis ex_nonempty : ex <> [].

Lemma exponent_head :
  exists c r, ip = c :: r /\ is_digit c = true.
Proof.
  destruct ip as [|c r]; [contradiction|].
  simpl in ip_digits. apply andb_true_iff in ip_digits.
  exists c, r. split; [reflexivity|apply ip_digits].
Qed.

Lemma exponent_trimStart : trimStart (exponent_id ip ex) = exponent_id ip ex.
Proof.
  destruct exponent_head as [c [r [E H]]]. unfold exponent_id. rewrite E.
  apply trimStart_id, digit_not_whitespace, H.
Qed.

Lemma exponent_trim : trim (exponent_id ip ex) = exponent_id ip ex.
Proof.
  unfold trim. rewrite exponent_trimStart. unfold exponent_id.
  destruct (exists_last ex_nonempty) as [ex' [c E]].
  rewrite E in *. rewrite !app_assoc.
  apply trimEnd_id, digit_not_whitespace.
  rewrite forallb_app in ex_digits. apply andb_true_iff in ex_digits.
  destruct ex_digits as [_ H]. simpl in H. rewrite andb_true_r in H. exact H.
Qed.

Lemma exponent_scan_sign :
  scan_sign (exponent_id ip ex) = (false, exponent_id ip ex).
Proof.
  destruct exponent_head as [c [r [E H]]]. unfold exponent_id. rewrite E.
  digit_case c H; reflexivity.
Qed.

Lemma exponent_span :
  span is_digit (exponent_id ip ex) = (ip, lit "e" ++ ex).
Proof. apply span_app; [exact ip_digits|reflexivity]. Qed.

Lemma exponent_scan_exponent :
  scan_exponent (lit "e" ++ ex) = (digits_value ex, []).
Proof.
  change (lit "e" ++ ex) with (101%N :: ex). unfold scan_exponent.
  change ((101 =? 101) || (101 =? 69))%N with true. cbv iota.
  assert (S : scan_sign ex = (false, ex)).
  { destruct ex as [|c r]; [contradiction|].
    simpl in ex_digits. apply andb_true_iff in ex_digits.
    destruct ex_digits as [H _]. digit_case c H; reflexivity. }
  rewrite S. rewrite <- (app_nil_r ex) at 1.
  rewrite span_app by (exact ex_digits || exact I).
  destruct ex; [contradiction|reflexivity].
Qed.

Lemma exponent_literal :
  scan_StrDecimalLiteral (exponent_id ip ex)
  = Some (round_decimal false (digits_value ip) (digits_value ex), []).
Proof.
  unfold scan_StrDecimalLiteral. rewrite exponent_scan_sign.
  assert (NI : strip_prefix (lit "Infinity") (exponent_id ip ex) = None).
  { destruct exponent_head as [c [r [E H]]]. unfold exponent_id. rewrite E.
    digit_case c H; reflexivity. }
  rewrite NI. unfold scan_decimal. rewrite exponent_span.
  change (lit "e" ++ ex) with (101%N :: ex) at 1. cbv beta iota.
  change (101 =? 46)%N with false. cbv iota.
  change (101%N :: ex) with (lit "e" ++ ex).
  rewrite exponent_scan_exponent.
  destruct ip; [contradiction|reflexivity].
Qed.

Lemma exponent_second :
  exists c0 c1 r, exponent_id ip ex = c0 :: c1 :: r
                  /\ (is_digit c1 = true \/ c1 = 101%N).
Proof.
  unfold exponent_id.
  destruct ip as [|i0 [|i1 q]]; [contradiction| |].
  - exists i0, 101%N, ex. split; [reflexivity|right; reflexivity].
  - exists i0, i1, (q ++ lit "e" ++ ex). split; [reflexivity|left].
    simpl in ip_digits. apply andb_true_iff in ip_digits.
    destruct ip_digits as [_ H]. apply andb_true_iff in H. apply H.
Qed.

Lemma exponent_StringToNumber :
  StringToNumber (exponent_id ip ex)
  = round_decimal false (digits_value ip) (digits_value ex).
Proof.
  unfold StringToNumber. rewrite exponent_trim, exponent_literal.
  destruct exponent_second as [c0 [c1 [r [E S2]]]]. rewrite E.
  destruct (c0 =? 48)%N; [|reflexivity].
  destruct S2 as [H| ->]; [|reflexivity].
  digit_case c1 H; reflexivity.
Qed.

Lemma exponent_parseInt :
  parseInt (exponent_id ip ex) = round_decimal false (digits_value ip) 0.
Proof.
  unfold parseInt. rewrite exponent_trimStart, exponent_scan_sign.
  cbv beta iota zeta.
  assert (R : strip_hex_prefix (exponent_id ip ex) = (10, exponent_id ip ex)).
  { unfold strip_hex_prefix.
    destruct exponent_second as [c0 [c1 [r [E S2]]]]. rewrite E.
    destruct (c0 =? 48)%N; [|reflexivity].
    destruct S2 as [H| ->]; [|reflexivity].
    digit_case c1 H; reflexivity. }
  rewrite R, (span_ext _ _ _ digit_radix_10), exponent_span. cbn [fst].
  destruct ip; [contradiction|reflexivity].
Qed.

End Exponent.

(** ** An integer printed in decimal *)

Lemma lit_ascii a s :
  (N_of_ascii a <? 128)%N = true -> lit (String a s) = N_of_ascii a :: lit s.
Proof.
  intros H. unfold lit. cbn [list_ascii_of_string map utf16_of_utf8].
  rewrite H. reflexivity.
Qed.

Ltac next_digit :=
  cbn [NilEmpty.string_of_uint]; rewrite lit_ascii by reflexivity;
  match goal with
  | |- context [N_of_ascii ?a] =>
    let n := eval vm_compute in (N_of_ascii a) in
    change (N_of_ascii a) with n
  end.

Lemma uint_digits u :
  forallb is_digit (lit (NilEmpty.string_of_uint u)) = true.
Proof.
  induction u; [reflexivity|..]; next_digit; cbn [forallb];
    rewrite IHu; reflexivity.
Qed.

Lemma uint_value_acc u : forall acc,
  fold_left (fun a c => 10 * a + digit_or_zero c)
            (lit (NilEmpty.string_of_uint u)) (Zpos acc)
  = Zpos (Pos.of_uint_acc u acc).
Proof.
  induction u; intros acc; [reflexivity|..]; next_digit;
    cbn [fold_left Pos.of_uint_acc]; rewrite <- IHu; f_equal;
    match goal with
    | |- context [digit_or_zero ?c] =>
      let v := eval vm_compute in (digit_or_zero c) in
      change (digit_or_zero c) with v
    end; lia.
Qed.

Lemma uint_value u :
  digits_value (lit (NilEmpty.string_of_uint u)) = Z.of_N (Pos.of_uint u).
Proof.
  unfold digits_value, radix_value.
  induction u; [reflexivity|..]; next_digit;
    cbn [fold_left Pos.of_uint];
    match goal with
    | |- context [digit_or_zero ?c] =>
      let v := eval vm_compute in (digit_or_zero c) in
      change (digit_or_zero c) with v
    end;
    [exact IHu|..]; apply (uint_value_acc u).
Qed.

Lemma decimal_digits z :
  0 <= z ->
  forallb is_digit (Client.decimal z) = true
  /\ Client.decimal z <> []
  /\ digits_value (Client.decimal z) = z.
Proof.
  intros Hz. destruct z as [|p|p]; [| |lia].
  - repeat split. discriminate.
  - unfold Client.decimal, Z.to_int, NilZero.string_of_int,
      NilZero.string_of_uint.
    pose proof (DecimalPos.Unsigned.to_uint_nonnil p) as Hn.
    pose proof (DecimalPos.Unsigned.of_to p) as Hv.
    pose proof (uint_digits (Pos.to_uint p)) as Hd.
    pose proof (uint_value (Pos.to_uint p)) as Hx.
    rewrite Hv in Hx.
    destruct (Pos.to_uint p) eqn:E; try contradiction;
      (split; [exact Hd|split; [discriminate|exact Hx]]).
Qed.

(** Up to [2^53] the id is printed as its decimal digits. *)
Lemma id_to_string_safe z :
  Z.abs z <= 2 ^ 53 -> Client.id_to_string (Some z) = Client.decimal z.
Proof.
  intros Hz. unfold Client.id_to_string, Client.integer_to_string.
  replace (Z.abs z <=? 2 ^ 53) with true
    by (symmetry; apply Z.leb_le; exact Hz).
  reflexivity.
Qed.

(** ** Ids beyond [2^53] *)

Example id_to_string_rounded :
  Client.id_to_string (Some (2 ^ 53 + 1)) = lit "9007199254740992".
Proof. vm_compute. reflexivity. Qed.

Example id_to_string_padded :
  Client.id_to_string (Some (2 ^ 67)) = lit "147573952589676410000".
Proof. vm_compute. reflexivity. Qed.

Example id_to_string_exponent :
  Client.id_to_string (Some (10 ^ 21)) = lit "1e+21".
Proof. vm_compute. reflexivity. Qed.

Example id_to_string_exponent_digits :
  Client.id_to_string (Some (- 2 ^ 70)) = lit "-1.1805916207174113e+21".
Proof. vm_compute. reflexivity. Qed.

End JSMore.

(* ================================================================== *)
(** * More about the API service *)
(* ================================================================== *)

Module ServerMore.
Import JS Server Wiring Inputs JSFacts JSMore ServerFacts.

Lemma post_outcome_status (ans : answer) :
  status (post_outcome ans) = 400 \/ status (post_outcome ans) = 201.
Proof. destruct ans; [right|left]; reflexivity. Qed.

Lemma ToNumber_throws (v : value) :
  (exists e, ToNumber v = Throw e) <-> v = VObject None.
Proof.
  split.
  - intros [e H]. destruct v as [| | | | |[s|]]; try discriminate. reflexivity.
  - intros ->. eexists. reflexivity.
Qed.

(** X1. The create route answers 500 exactly when the name and the price
    are truthy and either the price is an object that cannot be converted to
    a primitive, or the price passes both checks and the name, or a truthy
    description, is not a string. In that case the store is not called. *)
Theorem create_internal_error_iff (st : store) (req : body) :
  (status (fst (run (post_produtos st req))) = 500
   <-> ToBoolean (body_nome req) = true
       /\ ToBoolean (body_preco req) = true
       /\ (body_preco req = VObject None
           \/ ((exists x, ToNumber (body_preco req) = Ok x
                          /\ is_nan x = false
                          /\ num_leb x (zero false) = false)
               /\ (is_string (body_nome req) = false
                   \/ (ToBoolean (body_descricao req) = true
                       /\ is_string (body_descricao req) = false)))))
  /\ (status (fst (run (post_produtos st req))) = 500 ->
      snd (run (post_produtos st req)) = []).
Proof.
  unfold post_produtos.
  destruct (ToBoolean (body_nome req)) eqn:Tn; cbn [negb orb];
    [|split; [split; [discriminate|intros [H _]; discriminate]|discriminate]].
  destruct (ToBoolean (body_preco req)) eqn:Tp; cbn [negb orb];
    [|split; [split; [discriminate|intros [_ [H _]]; discriminate]|discriminate]].
  run_route. unfold isNaN, le_zero, bind.
  destruct (ToNumber (body_preco req)) as [x|[m]] eqn:Ex.
  2:{ assert (P : body_preco req = VObject None)
        by (apply ToNumber_throws; eexists; exact Ex).
      split; [split|]; try reflexivity. intros _. auto. }
  assert (NP : body_preco req <> VObject None).
  { intros P. rewrite P in Ex. discriminate. }
  destruct (is_nan x) eqn:En; run_route.
  { split; [split; [discriminate|]|discriminate].
    intros [_ [_ [P|[[y [Ey [Ny _]]] _]]]]; [contradiction|].
    injection Ey as <-. rewrite En in Ny. discriminate. }
  destruct (num_leb x (zero false)) eqn:El; run_route.
  { split; [split; [discriminate|]|discriminate].
    intros [_ [_ [P|[[y [Ey [_ Ly]]] _]]]]; [contradiction|].
    injection Ey as <-. rewrite El in Ly. discriminate. }
  assert (V : exists y, Ok x = Ok y /\ is_nan y = false
                        /\ num_leb y (zero false) = false)
    by (exists x; auto).
  assert (PF : exists p, parseFloat (body_preco req) = Ok p).
  { destruct (body_preco req) as [| | | | |[s|]]; try (eexists; reflexivity).
    contradiction NP. reflexivity. }
  destruct PF as [p Ep].
  destruct (body_nome req) as [| | | |s|o] eqn:Hn; cbn [call_trim is_string];
    run_route;
    try (split; [split; [intros _|reflexivity]|reflexivity];
         repeat split; right; split; [exact V|left; reflexivity]).
  rewrite Ep. run_route.
  destruct (ToBoolean (body_descricao req)) eqn:Td; run_route.
  - destruct (body_descricao req) as [| | | |t|o] eqn:Hd;
      cbn [call_trim is_string]; run_route;
      try (split; [split; [intros _|reflexivity]|reflexivity];
           repeat split; right; split; [exact V|right; split; reflexivity]).
    split; [split|].
    + intros H. destruct (post_outcome_status (st (inserir_query
        {| novo_nome := trim s; novo_preco := p;
           novo_descricao := Some (trim t) |}))) as [E|E];
        rewrite E in H; discriminate.
    + intros [_ [_ [P|[_ [H|[_ H]]]]]]; [contradiction|discriminate..].
    + intros H. destruct (post_outcome_status (st (inserir_query
        {| novo_nome := trim s; novo_preco := p;
           novo_descricao := Some (trim t) |}))) as [E|E];
        rewrite E in H; discriminate.
  - split; [split|].
    + intros H. destruct (post_outcome_status (st (inserir_query
        {| novo_nome := trim s; novo_preco := p;
           novo_descricao := None |}))) as [E|E];
        rewrite E in H; discriminate.
    + intros [_ [_ [P|[_ [H|[H _]]]]]]; [contradiction|discriminate..].
    + intros H. destruct (post_outcome_status (st (inserir_query
        {| novo_nome := trim s; novo_preco := p;
           novo_descricao := None |}))) as [E|E];
        rewrite E in H; discriminate.
Qed.

Lemma create_internal_error_iff_witness :
  status (fst (run (post_produtos empty_store
                      {| body_nome := VBool true;
                         body_preco := VNum (num_of_Z 5);
                         body_descricao := VUndefined |}))) = 500
  /\ snd (run (post_produtos empty_store
                 {| body_nome := VStr (lit "Bolo");
                    body_preco := VNum (num_of_Z 5);
                    body_descricao := VNum (num_of_Z 1) |})) = [].
Proof.
  split.
  - apply (proj1 (create_internal_error_iff empty_store _)).
    split; [reflexivity|]. split; [reflexivity|]. right. split.
    + exists (num_of_Z 5). repeat split.
    + left. reflexivity.
  - apply (proj2 (create_internal_error_iff empty_store _)).
    vm_compute. reflexivity.
Defined.

(** X2. Whatever the request and the store, the create route calls the
    store at most once, with an insert of a single row, and its response is
    then the one decided by the store's answer. A 201 is sent only when that
    insert was answered with rows: its data is the first of them, and there
    is no data when the store returned none. *)
Theorem create_calls_store_at_most_once (st : store) (req : body) :
  (snd (run (post_produtos st req)) = []
   \/ exists n, snd (run (post_produtos st req)) = [Insert "produtos" [n]])
  /\ (status (fst (run (post_produtos st req))) = 201 ->
      exists n,
        snd (run (post_produtos st req)) = [Insert "produtos" [n]]
        /\ ((st (Insert "produtos" [n]) = Data []
             /\ data (fst (run (post_produtos st req))) = NoData)
            \/ exists r rs,
                 st (Insert "produtos" [n]) = Data (r :: rs)
                 /\ data (fst (run (post_produtos st req))) = Row r)).
Proof.
  assert (Shape :
    (snd (run (post_produtos st req)) = []
     /\ status (fst (run (post_produtos st req))) <> 201)
    \/ exists n, run (post_produtos st req)
                 = (post_outcome (st (inserir_query n)), [inserir_query n])).
  { unfold post_produtos.
    destruct (negb (ToBoolean (body_nome req))
              || negb (ToBoolean (body_preco req)));
      [left; split; [reflexivity|discriminate]|].
    run_route. unfold isNaN, le_zero, bind.
    destruct (ToNumber (body_preco req)) as [x|[m]];
      [|left; split; [reflexivity|discriminate]].
    destruct (is_nan x); run_route;
      [left; split; [reflexivity|discriminate]|].
    destruct (num_leb x (zero false)); run_route;
      [left; split; [reflexivity|discriminate]|].
    destruct (call_trim "nome" (body_nome req)) as [s|[m]]; run_route;
      [|left; split; [reflexivity|discriminate]].
    destruct (parseFloat (body_preco req)) as [p|[m]]; run_route;
      [|left; split; [reflexivity|discriminate]].
    destruct (ToBoolean (body_descricao req)); run_route.
    - destruct (call_trim "descricao" (body_descricao req)) as [t|[m]];
        run_route; [|left; split; [reflexivity|discriminate]].
      right. eexists. reflexivity.
    - right. eexists. reflexivity. }
  destruct Shape as [[L S]|[n E]].
  - split; [left; exact L|]. intros H. contradiction.
  - rewrite E. cbn [fst snd]. unfold inserir_query. split.
    + right. exists n. reflexivity.
    + intros H. exists n. split; [reflexivity|].
      destruct (st (Insert "produtos" [n])) as [[|r rs]|m]; [| |discriminate].
      * left. split; reflexivity.
      * right. exists r, rs. split; reflexivity.
Qed.

Lemma create_calls_store_at_most_once_witness :
  data (fst (run (post_produtos echoing_store pao)))
  = Row {| id := 1; nome := lit "Pão";
           preco := S754_finite false 6192449487634432 (-50);
           descricao := None; created_at := 0 |}.
Proof.
  assert (S : status (fst (run (post_produtos echoing_store pao))) = 201)
    by (vm_compute; reflexivity).
  destruct (proj2 (create_calls_store_at_most_once echoing_store pao) S)
    as [n [L H]].
  assert (En : n = {| novo_nome := lit "Pão"; novo_preco := five_and_a_half;
                      novo_descricao := None |}).
  { vm_compute in L. inversion L. vm_compute. reflexivity. }
  subst n. destruct H as [[A _]|[r [rs [A D]]]].
  - vm_compute in A. discriminate A.
  - rewrite D. vm_compute in A. inversion A. vm_compute. reflexivity.
Defined.

(** X3. Every row the create route sends to the store has a name with no
    white space at either end, and a description that is null or has none
    either. *)
Theorem create_sends_trimmed_fields
        (st : store) (req : body) (n : novo_produto) :
  In (Insert "produtos" [n]) (snd (run (post_produtos st req))) ->
  outer_clean (novo_nome n) = true
  /\ match novo_descricao n with
     | Some d => outer_clean d = true
     | None => True
     end.
Proof.
  intros H.
  destruct (post_log st req _ H)
    as [s [x [p [d [_ [_ [_ [_ [_ [_ [_ [Hd Hq]]]]]]]]]]]].
  injection Hq as ->. cbn [novo_nome novo_descricao].
  split; [apply trim_outer_clean|].
  destruct Hd as [[_ ->]|[t [_ [_ ->]]]]; [exact I|apply trim_outer_clean].
Qed.

Lemma create_sends_trimmed_fields_witness :
  outer_clean (lit "Pão") = true
  /\ outer_clean (lit "de queijo") = true.
Proof.
  apply (create_sends_trimmed_fields empty_store pao_de_queijo
           {| novo_nome := lit "Pão"; novo_preco := num_of_Z 5;
              novo_descricao := Some (lit "de queijo") |}).
  vm_compute. left. reflexivity.
Defined.

(** X4. A price written as a minus sign, digits, a point and digits is
    rejected with the positive-price envelope whenever the name is truthy,
    and the store is not called. *)
Theorem create_rejects_negative_decimal
        (st : store) (req : body) (ip fp : jsstring) :
  forallb is_digit ip = true -> forallb is_digit fp = true ->
  ip <> [] -> fp <> [] ->
  ToBoolean (body_nome req) = true ->
  body_preco req = VStr (decimal_fraction true ip fp) ->
  run (post_produtos st req) = (preco_invalido, []).
Proof.
  intros Hi Hf Ni Nf Tn Hp.
  pose proof (round_decimal_sign true (digits_value (ip ++ fp)) (- len fp)) as S.
  unfold post_produtos. rewrite Tn, Hp.
  change (ToBoolean (VStr (decimal_fraction true ip fp))) with true.
  cbn [negb orb]. run_route. unfold isNaN, le_zero, bind, ToNumber.
  rewrite fraction_StringToNumber by assumption.
  rewrite (has_sign_not_nan _ _ S). run_route.
  rewrite (negative_le_zero _ S). reflexivity.
Qed.

Lemma create_rejects_negative_decimal_witness :
  run (post_produtos empty_store
         {| body_nome := VStr (lit "Bolo"); body_preco := VStr (lit "-2.50");
            body_descricao := VUndefined |})
  = (preco_invalido, []).
Proof.
  apply (create_rejects_negative_decimal empty_store _ (lit "2") (lit "50"));
    try (vm_compute; reflexivity); vm_compute; discriminate.
Defined.

(** X5. For a price written as digits, or as digits, a point and digits,
    [parseFloat] and [ToNumber] read the same Number. With a non-empty
    string name and a falsy description, such a price is rejected with the
    positive-price envelope when that Number is zero, and otherwise the row
    sent to the store carries exactly that Number. *)
Theorem create_stores_validated_decimal
        (st : store) (req : body) (s price : jsstring) :
  (forallb is_digit price = true /\ price <> []
   \/ exists ip fp, forallb is_digit ip = true /\ forallb is_digit fp = true
                    /\ ip <> [] /\ fp <> []
                    /\ price = decimal_fraction false ip fp) ->
  body_nome req = VStr s -> s <> [] ->
  body_preco req = VStr price ->
  ToBoolean (body_descricao req) = false ->
  let x := StringToNumber price in
  let q := Insert "produtos"
             [{| novo_nome := trim s; novo_preco := x;
                 novo_descricao := None |}] in
  parseFloat_string price = x
  /\ run (post_produtos st req)
     = if is_zero x then (preco_invalido, [])
       else (post_outcome (st q), [q]).
Proof.
  intros Hp Hn Hs Hv Hd x q.
  assert (F : parseFloat_string price = x
              /\ has_sign false x /\ price <> []).
  { subst x. destruct Hp as [[D N]|[ip [fp [Di [Df [Ni [Nf ->]]]]]]].
    - split; [apply integer_parseFloat; assumption|]. split; [|exact N].
      rewrite integer_StringToNumber by assumption. apply round_decimal_sign.
    - split; [apply fraction_parseFloat; assumption|]. split.
      + rewrite fraction_StringToNumber by assumption.
        apply round_decimal_sign.
      + unfold decimal_fraction, sign_prefix. destruct ip; [contradiction|].
        discriminate. }
  destruct F as [PF [S NE]]. split; [exact PF|].
  assert (Tp : ToBoolean (body_preco req) = true).
  { rewrite Hv. destruct price; [contradiction|reflexivity]. }
  destruct (is_zero x) eqn:Z.
  - destruct (run_post_not_positive st req x) as [E|E].
    + rewrite Hv. reflexivity.
    + right. rewrite (positive_le_zero x S). exact Z.
    + exfalso. revert E. unfold post_produtos. rewrite Hn, Tp.
      replace (ToBoolean (VStr s)) with true
        by (destruct s; [contradiction|reflexivity]).
      cbn [negb orb]. run_route. unfold isNaN, le_zero, bind.
      rewrite Hv. cbn [ToNumber]. fold x.
      rewrite (has_sign_not_nan _ _ S). run_route.
      rewrite (positive_le_zero x S), Z. run_route.
      intros E. vm_compute in E. discriminate E.
    + exact E.
  - apply (run_post_valid st req s x x Hn Hs Tp).
    + rewrite Hv. reflexivity.
    + apply (has_sign_not_nan _ _ S).
    + rewrite (positive_le_zero x S). exact Z.
    + rewrite Hv. cbn [parseFloat]. rewrite PF. reflexivity.
    + left. split; [exact Hd|reflexivity].
Qed.

Lemma create_stores_validated_decimal_witness :
  parseFloat_string (lit "5.50") = StringToNumber (lit "5.50")
  /\ snd (run (post_produtos empty_store pao))
     = [Insert "produtos"
          [{| novo_nome := lit "Pão"; novo_preco := StringToNumber (lit "5.50");
              novo_descricao := None |}]].
Proof.
  destruct (create_stores_validated_decimal empty_store pao
              (lit "Pão") (lit "5.50")) as [P R].
  - right. exists (lit "5"), (lit "50").
    repeat split; try (vm_compute; discriminate).
  - reflexivity.
  - vm_compute. discriminate.
  - reflexivity.
  - reflexivity.
  - split; [exact P|]. rewrite R. vm_compute. reflexivity.
Defined.

(** X6. A description made of white space only is truthy, so the create
    route stores it as the empty string, not as null; the form, which trims
    before it tests, sends null for the same text. *)
Theorem create_blank_description_is_empty_string
        (st : store) (req : body) (s t : jsstring) (x p : number) :
  body_nome req = VStr s -> s <> [] ->
  ToBoolean (body_preco req) = true ->
  ToNumber (body_preco req) = Ok x ->
  is_nan x = false -> num_leb x (zero false) = false ->
  parseFloat (body_preco req) = Ok p ->
  body_descricao req = VStr t -> blank t = true -> t <> [] ->
  snd (run (post_produtos st req))
  = [Insert "produtos"
       [{| novo_nome := trim s; novo_preco := p;
           novo_descricao := Some [] |}]]
  /\ forall nome preco,
       Client.dados_descricao (Client.form_dados nome preco t) = None.
Proof.
  intros Hn Hs Tp Ex En El Ep Hd Hb Ht. split.
  - rewrite (run_post_valid st req s x p Hn Hs Tp Ex En El Ep (Some (trim t))).
    + rewrite (trim_blank t Hb). reflexivity.
    + right. exists t. repeat split; assumption.
  - intros nome preco. unfold Client.form_dados. cbn [Client.dados_descricao].
    rewrite (trim_blank t Hb). reflexivity.
Qed.

Lemma create_blank_description_is_empty_string_witness :
  snd (run (post_produtos empty_store
              {| body_nome := VStr (lit "Bolo");
                 body_preco := VNum (num_of_Z 5);
                 body_descricao := VStr (lit "   ") |}))
  = [Insert "produtos"
       [{| novo_nome := lit "Bolo"; novo_preco := num_of_Z 5;
           novo_descricao := Some [] |}]].
Proof.
  apply (create_blank_description_is_empty_string empty_store _
           (lit "Bolo") (lit "   ") (num_of_Z 5) (num_of_Z 5));
    try (vm_compute; reflexivity); vm_compute; discriminate.
Defined.

(** X7. An id made of white space only passes the [isNaN] check, because
    [ToNumber] reads it as 0, while [parseInt] reads it as NaN: the store is
    asked to delete with the key NaN. *)
Theorem delete_blank_id_is_keyed_by_nan (st : store) (id : jsstring) :
  blank id = true ->
  isNaN (VStr id) = Ok false
  /\ run (delete_produto st id)
     = (delete_outcome (st (Delete "produtos" "id" NaN)),
        [Delete "produtos" "id" NaN]).
Proof.
  intros H. split.
  - unfold isNaN, ToNumber, bind. rewrite (blank_StringToNumber id H).
    reflexivity.
  - rewrite run_delete, (blank_StringToNumber id H), (blank_parseInt id H).
    reflexivity.
Qed.

Lemma delete_blank_id_is_keyed_by_nan_witness :
  run (delete_produto failing_store (lit "  "))
  = (erro_store "Erro ao excluir produto" (lit "connection refused"),
     [Delete "produtos" "id" NaN]).
Proof.
  apply (delete_blank_id_is_keyed_by_nan failing_store (lit "  ")).
  vm_compute. reflexivity.
Defined.

(** X8. For an id written as digits, [e] and digits, the [isNaN] check
    reads the whole literal and passes, while [parseInt] stops at the [e]:
    the delete is keyed by the Number of the digits before it, so ["1e3"]
    deletes by key 1. *)
Theorem delete_exponent_id_is_keyed_by_mantissa
        (st : store) (ip ex : jsstring) :
  forallb is_digit ip = true -> forallb is_digit ex = true ->
  ip <> [] -> ex <> [] ->
  let id := exponent_id ip ex in
  let key := StringToNumber ip in
  StringToNumber id = round_decimal false (digits_value ip) (digits_value ex)
  /\ isNaN (VStr id) = Ok false
  /\ run (delete_produto st id)
     = (delete_outcome (st (Delete "produtos" "id" key)),
        [Delete "produtos" "id" key]).
Proof.
  intros Hi He Ni Ne id key.
  assert (N : StringToNumber id
              = round_decimal false (digits_value ip) (digits_value ex))
    by (apply exponent_StringToNumber; assumption).
  assert (K : parseInt id = key).
  { subst id key. rewrite exponent_parseInt, integer_StringToNumber
      by assumption. reflexivity. }
  split; [exact N|]. split.
  - unfold isNaN, ToNumber, bind. rewrite N, round_decimal_not_nan.
    reflexivity.
  - rewrite run_delete, N, round_decimal_not_nan, K. reflexivity.
Qed.

Lemma delete_exponent_id_is_keyed_by_mantissa_witness :
  exponent_id (lit "1") (lit "3") = lit "1e3"
  /\ StringToNumber (lit "1e3") = num_of_Z 1000
  /\ snd (run (delete_produto empty_store (lit "1e3")))
     = [Delete "produtos" "id" (num_of_Z 1)].
Proof.
  split; [vm_compute; reflexivity|].
  destruct (delete_exponent_id_is_keyed_by_mantissa
              empty_store (lit "1") (lit "3")) as [N [_ R]];
    try (vm_compute; reflexivity); try (vm_compute; discriminate).
  split.
  - etransitivity; [exact N|]. vm_compute. reflexivity.
  - etransitivity; [exact (f_equal snd R)|]. vm_compute. reflexivity.
Defined.

(** X9. The path segment [excluirProduto] prints for an integer id from 0
    to [2^53] is read back by the delete route as that same integer: the
    check passes and the single store call is keyed by the id. Beyond that
    range the segment may be read back as another key: for the id [10^21]
    it is ["1e+21"], which is keyed by 1. *)
Theorem delete_reads_back_client_id (st : store) (z : Z) :
  0 <= z <= 2 ^ 53 ->
  let id := Client.id_to_string (Some z) in
  isNaN (VStr id) = Ok false
  /\ run (delete_produto st id)
     = (delete_outcome (st (Delete "produtos" "id" (num_of_Z z))),
        [Delete "produtos" "id" (num_of_Z z)])
  /\ snd (run (delete_produto st (Client.id_to_string (Some (10 ^ 21)))))
     = [Delete "produtos" "id" (num_of_Z 1)].
Proof.
  intros Hz id.
  assert (Hid : id = Client.decimal z)
    by (apply id_to_string_safe; lia).
  destruct (decimal_digits z (proj1 Hz)) as [D [N V]].
  rewrite <- Hid in D, N, V.
  assert (S : StringToNumber id = num_of_Z z).
  { rewrite integer_StringToNumber, V by assumption.
    apply round_integer, Hz. }
  assert (K : parseInt id = num_of_Z z).
  { rewrite integer_parseInt, V by assumption. apply round_integer, Hz. }
  assert (NN : is_nan (num_of_Z z) = false).
  { rewrite <- (round_integer z (proj1 Hz)). apply round_decimal_not_nan. }
  split; [|split].
  - unfold isNaN, ToNumber, bind. rewrite S, NN. reflexivity.
  - rewrite run_delete, S, NN, K. reflexivity.
  - vm_compute. reflexivity.
Qed.

Lemma delete_reads_back_client_id_witness :
  Client.excluir_url (Some 7) = lit "http://localhost:3000/api/produtos/7"
  /\ run (delete_produto empty_store (lit "7"))
     = (nao_encontrado,
        [Delete "produtos" "id" (S754_finite false 7881299347898368 (-50))]).
Proof.
  split; [vm_compute; reflexivity|].
  assert (B : 0 <= 7 <= 2 ^ 53) by (split; [lia|vm_compute; discriminate]).
  destruct (delete_reads_back_client_id empty_store 7 B) as [_ [R _]].
  etransitivity; [exact R|]. vm_compute. reflexivity.
Defined.

(** X10. What the form sends is accepted as it is: for a submission that
    passes the form's two checks with a finite price, the body that
    [JSON.stringify] writes and [express.json()] reads makes the create
    route send exactly one insert, whose row is the form's own name, price
    and description. When the parsed price is not finite it travels as
    null and the route answers with the required-fields envelope. *)
Theorem create_accepts_form_body
        (st : store) (nome preco descricao : jsstring) :
  trim nome <> [] ->
  num_ltb (zero false) (parseFloat_string preco) = true ->
  let d := Client.form_dados nome preco descricao in
  let q := Insert "produtos"
             [{| novo_nome := Client.dados_nome d;
                 novo_preco := Client.dados_preco d;
                 novo_descricao := Client.dados_descricao d |}] in
  run (post_produtos st (json_body d))
  = if is_finite (Client.dados_preco d)
    then (post_outcome (st q), [q])
    else (campos_obrigatorios, []).
Proof.
  intros Hn Hp d q. subst q d. unfold Client.form_dados.
  cbn [Client.dados_nome Client.dados_preco Client.dados_descricao].
  set (x := parseFloat_string preco) in *.
  destruct x as [s|s| |s m e] eqn:X; try discriminate;
    destruct s; try discriminate; cbn [is_finite].
  - apply run_post_missing. right. reflexivity.
  - pose proof (run_post_valid st
                  (json_body
                     {| Client.dados_nome := trim nome;
                        Client.dados_preco := S754_finite false m e;
                        Client.dados_descricao :=
                          match trim descricao with
                          | [] => None
                          | c :: t => Some (c :: t)
                          end |})
                  (trim nome) (S754_finite false m e) (S754_finite false m e)
                  eq_refl Hn eq_refl eq_refl eq_refl eq_refl eq_refl
                  (match trim descricao with
                   | [] => None
                   | c :: t => Some (c :: t)
                   end)) as R.
    cbv zeta in R. rewrite trim_idempotent in R. apply R.
    cbn [json_body Server.body_descricao Client.dados_descricao].
    destruct (trim descricao) as [|c t] eqn:T.
    + left. split; reflexivity.
    + right. exists (c :: t). split; [reflexivity|]. split; [discriminate|].
      rewrite <- T, trim_idempotent. reflexivity.
Qed.

Lemma create_accepts_form_body_witness :
  run (post_produtos empty_store
         (json_body (Client.form_dados (lit " Bolo ") (lit "12.5") (lit ""))))
  = (post_outcome (Data []),
     [Insert "produtos"
        [{| novo_nome := lit "Bolo";
            novo_preco := StringToNumber (lit "12.5");
            novo_descricao := None |}]])
  /\ fst (run (post_produtos empty_store
                 (json_body (Client.form_dados (lit "Bolo") (lit "Infinity")
                                               (lit "")))))
     = campos_obrigatorios.
Proof.
  split.
  - etransitivity.
    + apply (create_accepts_form_body empty_store
               (lit " Bolo ") (lit "12.5") (lit ""));
        [vm_compute; discriminate|vm_compute; reflexivity].
    + vm_compute. reflexivity.
  - etransitivity.
    + apply (f_equal fst).
      apply (create_accepts_form_body empty_store
               (lit "Bolo") (lit "Infinity") (lit ""));
        [vm_compute; discriminate|vm_compute; reflexivity].
    + vm_compute. reflexivity.
Defined.

End ServerMore.

(* ================================================================== *)
(** * More about the client application *)
(* ================================================================== *)

Module ClientMore.
Import JS Client Wiring Inputs JSFacts JSMore ClientFacts.

Ltac effects :=
  unfold mostrarNotificacao, renderizarProdutos, set_produtos, emit;
  cbn [efeitos produtos produtoParaExcluir modal_aberto];
  rewrite <- ?app_assoc; cbn [app].

Section Page.
Variable rede : list efeito -> request -> fetched.

(** ** What each call to the network leaves behind *)

Lemma buscar_footprint (c : client) :
  exists es,
    footprint rede c (buscarProdutos rede c) (Fetch listar :: es)
    /\ requests es = [].
Proof.
  unfold buscarProdutos, fetch.
  destruct (rede (efeitos c) listar) as [[|] b|m] eqn:R.
  - assert (F : from_list_response rede (data_or_empty b))
      by (exists (efeitos c), b; auto).
    unfold data_or_empty in F.
    destruct (resp_data b) as [[|p ps]|]; effects;
      (eexists; split; [constructor; [reflexivity..|right; exact F]|reflexivity]).
  - effects. eexists. split; [constructor; [reflexivity..|left; reflexivity]|].
    reflexivity.
  - effects. eexists. split; [constructor; [reflexivity..|left; reflexivity]|].
    reflexivity.
Qed.

Lemma footprint_trans (c c1 c2 : client) (es1 es2 : list efeito) :
  footprint rede c c1 es1 -> footprint rede c1 c2 es2 ->
  footprint rede c c2 (es1 ++ es2).
Proof.
  intros [E1 P1 M1 C1] [E2 P2 M2 C2]. constructor.
  - rewrite E2, E1, app_assoc. reflexivity.
  - congruence.
  - congruence.
  - destruct C2 as [C2|C2]; [|right; exact C2].
    rewrite C2. exact C1.
Qed.

Lemma emit_footprint (c : client) (e : efeito) :
  footprint rede c (emit e c) [e].
Proof. constructor; [reflexivity..|left; reflexivity]. Qed.

Lemma cadastrar_footprint (dados : dados_produto) (c : client) :
  exists es,
    footprint rede c (cadastrarProduto rede dados c)
              (Fetch (cadastrar dados) :: es)
    /\ (requests es = [] \/ requests es = [listar]).
Proof.
  unfold cadastrarProduto, fetch.
  destruct (rede (efeitos c) (cadastrar dados)) as [[|] b|m].
  - match goal with |- context [buscarProdutos rede ?x] =>
      destruct (buscar_footprint x) as [es [F R]];
      pose proof (footprint_trans c x _
                    [Fetch (cadastrar dados);
                     Notificacao (lit "Produto cadastrado com sucesso!") sucesso;
                     FormReset] _
                    ltac:(constructor; [effects; reflexivity|reflexivity..
                                       |left; reflexivity]) F) as T
    end.
    eexists. split; [exact T|]. right. unfold requests in *. simpl.
    rewrite R. reflexivity.
  - effects. eexists. split; [constructor; [reflexivity..|left; reflexivity]|].
    left. reflexivity.
  - effects. eexists. split; [constructor; [reflexivity..|left; reflexivity]|].
    left. reflexivity.
Qed.

Lemma excluir_footprint (id : option Z) (c : client) :
  exists es,
    footprint rede c (excluirProduto rede id c) (Fetch (excluir id) :: es)
    /\ (requests es = [] \/ requests es = [listar]).
Proof.
  unfold excluirProduto, fetch.
  destruct (rede (efeitos c) (excluir id)) as [[|] b|m].
  - match goal with |- context [buscarProdutos rede ?x] =>
      destruct (buscar_footprint x) as [es [F R]];
      pose proof (footprint_trans c x _
                    [Fetch (excluir id);
                     Notificacao (lit "Produto excluído com sucesso!") sucesso] _
                    ltac:(constructor; [effects; reflexivity|reflexivity..
                                       |left; reflexivity]) F) as T
    end.
    eexists. split; [exact T|]. right. unfold requests in *. simpl.
    rewrite R. reflexivity.
  - effects. eexists. split; [constructor; [reflexivity..|left; reflexivity]|].
    left. reflexivity.
  - effects. eexists. split; [constructor; [reflexivity..|left; reflexivity]|].
    left. reflexivity.
Qed.

Lemma submit_footprint (nome preco descricao : jsstring) (c : client) :
  exists es, footprint rede c (submit rede nome preco descricao c) es.
Proof.
  unfold submit.
  destruct (negb (ToBoolean (VStr (dados_nome (form_dados nome preco descricao))))).
  { effects. eexists. constructor; [reflexivity..|left; reflexivity]. }
  destruct (negb (ToBoolean (VNum (dados_preco (form_dados nome preco descricao))))
            || num_leb (dados_preco (form_dados nome preco descricao)) (zero false)).
  { effects. eexists. constructor; [reflexivity..|left; reflexivity]. }
  destruct (cadastrar_footprint (form_dados nome preco descricao)
              (emit (LoadingCadastro true) c)) as [es [F R]].
  eexists.
  exact (footprint_trans _ _ _ _ _
           (footprint_trans _ _ _ _ _
              (emit_footprint c (LoadingCadastro true)) F)
           (emit_footprint _ (LoadingCadastro false))).
Qed.

Lemma jsstring_eqb_refl (s : jsstring) : jsstring_eqb s s = true.
Proof.
  unfold jsstring_eqb. destruct (list_eq_dec N.eq_dec s s); congruence.
Qed.

Lemma jsstring_eqb_neq (a b : jsstring) : a <> b -> jsstring_eqb a b = false.
Proof.
  intros H. unfold jsstring_eqb.
  destruct (list_eq_dec N.eq_dec a b); [contradiction|reflexivity].
Qed.

(** X11. A submission that passes the form's checks switches the loading
    state on, sends the create request with the trimmed fields, and
    switches the loading state off as its last effect whatever the network
    answered; besides the create request it sends at most the list
    request. *)
Theorem submit_always_ends_loading
        (nome preco descricao : jsstring) (c : client) :
  trim nome <> [] ->
  num_ltb (zero false) (parseFloat_string preco) = true ->
  exists mid,
    efeitos (submit rede nome preco descricao c)
    = efeitos c
      ++ LoadingCadastro true
      :: Fetch (cadastrar (form_dados nome preco descricao))
      :: mid ++ [LoadingCadastro false]
    /\ (requests mid = [] \/ requests mid = [listar]).
Proof.
  intros Hn Hp. unfold submit.
  set (d := form_dados nome preco descricao).
  assert (Tn : ToBoolean (VStr (dados_nome d)) = true).
  { subst d. cbn [form_dados dados_nome].
    destruct (trim nome); [contradiction|reflexivity]. }
  assert (Tp : negb (ToBoolean (VNum (dados_preco d)))
               || num_leb (dados_preco d) (zero false) = false).
  { rewrite not_positive. subst d. cbn [form_dados dados_preco].
    rewrite Hp. reflexivity. }
  rewrite Tn. cbn [negb]. rewrite Tp.
  destruct (cadastrar_footprint d (emit (LoadingCadastro true) c))
    as [es [[E _ _ _] R]].
  exists es. split; [|exact R].
  unfold emit at 1. cbn [efeitos]. rewrite E.
  unfold emit. cbn [efeitos]. rewrite <- !app_assoc. reflexivity.
Qed.

(** X12. A call that fails, because the response is not [ok] or the
    request is rejected, shows exactly one error notification made of the
    operation's prefix and the error text, sends nothing further, and
    leaves the cache as it was; a failed refresh also shows the empty-list
    state. *)
Theorem failed_call_shows_one_error (c : client) :
  (forall t,
      failure_text "Erro ao buscar produtos" (rede (efeitos c) listar) = Some t ->
      efeitos (buscarProdutos rede c)
      = efeitos c
        ++ [Fetch listar;
            Notificacao (lit "Erro ao carregar produtos: " ++ t) erro;
            ListaVazia]
      /\ produtos (buscarProdutos rede c) = produtos c)
  /\ (forall d t,
      failure_text "Erro ao cadastrar produto"
                   (rede (efeitos c) (cadastrar d)) = Some t ->
      efeitos (cadastrarProduto rede d c)
      = efeitos c
        ++ [Fetch (cadastrar d);
            Notificacao (lit "Erro ao cadastrar produto: " ++ t) erro]
      /\ produtos (cadastrarProduto rede d c) = produtos c)
  /\ (forall id t,
      failure_text "Erro ao excluir produto"
                   (rede (efeitos c) (excluir id)) = Some t ->
      efeitos (excluirProduto rede id c)
      = efeitos c
        ++ [Fetch (excluir id);
            Notificacao (lit "Erro ao excluir produto: " ++ t) erro]
      /\ produtos (excluirProduto rede id c) = produtos c).
Proof.
  split; [|split].
  - intros t. unfold buscarProdutos, fetch.
    destruct (rede (efeitos c) listar) as [[|] b|m]; cbn [failure_text];
      intros H; [discriminate|injection H as <-..];
      effects; split; reflexivity.
  - intros d t. unfold cadastrarProduto, fetch.
    destruct (rede (efeitos c) (cadastrar d)) as [[|] b|m]; cbn [failure_text];
      intros H; [discriminate|injection H as <-..];
      effects; split; reflexivity.
  - intros id t. unfold excluirProduto, fetch.
    destruct (rede (efeitos c) (excluir id)) as [[|] b|m]; cbn [failure_text];
      intros H; [discriminate|injection H as <-..];
      effects; split; reflexivity.
Qed.

(** X13. No function of the script that talks to the network updates the
    cache from a create or a delete response: after [buscarProdutos],
    [cadastrarProduto], [excluirProduto], the submit listener or
    [executarExclusao] has run, the cache is the one it started with or a
    list that a successful answer to the list request carried. *)
Theorem cache_only_from_list_responses (c : client) :
  let kept_or_fetched (c' : client) :=
    produtos c' = produtos c \/
    exists log b,
      rede log listar = Response true b
      /\ produtos c' = match resp_data b with Some ps => ps | None => [] end in
  kept_or_fetched (buscarProdutos rede c)
  /\ (forall d, kept_or_fetched (cadastrarProduto rede d c))
  /\ (forall id, kept_or_fetched (excluirProduto rede id c))
  /\ (forall n p d, kept_or_fetched (submit rede n p d c))
  /\ kept_or_fetched (executarExclusao rede c).
Proof.
  cbv zeta. split; [|split; [|split; [|split]]].
  - destruct (buscar_footprint c) as [es [[_ _ _ C] _]]. exact C.
  - intros d. destruct (cadastrar_footprint d c) as [es [[_ _ _ C] _]].
    exact C.
  - intros id. destruct (excluir_footprint id c) as [es [[_ _ _ C] _]].
    exact C.
  - intros n p d. destruct (submit_footprint n p d c) as [es [_ _ _ C]].
    exact C.
  - unfold executarExclusao. destruct (pendente c); [|left; reflexivity].
    destruct (excluir_footprint (produtoParaExcluir (cancelarExclusao c))
                (cancelarExclusao c)) as [es [[_ _ _ C] _]].
    exact C.
Qed.

(** X14. The confirm button: with no pending id, or with the pending id 0,
    [executarExclusao] changes nothing, so the modal stays as it is.
    Otherwise it closes the modal, clears the pending id, and its first
    effect is the delete request for [null]; after it comes at most the
    list request. *)
Theorem confirm_click_sends_null (c : client) :
  (pendente c = false -> executarExclusao rede c = c)
  /\ (forall nome,
        executarExclusao rede (confirmarExclusao 0 nome c)
        = confirmarExclusao 0 nome c)
  /\ (pendente c = true ->
      exists es,
        efeitos (executarExclusao rede c)
        = efeitos c ++ Fetch (excluir None) :: es
        /\ (requests es = [] \/ requests es = [listar])
        /\ produtoParaExcluir (executarExclusao rede c) = None
        /\ modal_aberto (executarExclusao rede c) = false).
Proof.
  split; [|split].
  - intros H. unfold executarExclusao. rewrite H. reflexivity.
  - intros nome. reflexivity.
  - intros H. unfold executarExclusao. rewrite H.
    destruct (excluir_footprint (produtoParaExcluir (cancelarExclusao c))
                (cancelarExclusao c)) as [es [[E P M _] R]].
    exists es. repeat split; assumption.
Qed.

(** X15. Once [confirmarExclusao] has run, each way of cancelling (the
    cancel button, a click on the backdrop, the Escape key) discards the
    pending id without any effect, and [executarExclusao] then sends
    nothing. A click inside the modal or any other key leaves the id
    pending. *)
Theorem cancelling_discards_pending
        (id : Z) (nome : jsstring) (c : client) (k : jsstring) :
  let opened := confirmarExclusao id nome c in
  let closed :=
    {| produtos := produtos c; produtoParaExcluir := None;
       modal_aberto := false; efeitos := efeitos c |} in
  cancelarExclusao opened = closed
  /\ modal_click true opened = closed
  /\ keydown (lit "Escape") opened = closed
  /\ executarExclusao rede closed = closed
  /\ modal_click false opened = opened
  /\ (k <> lit "Escape" -> keydown k opened = opened).
Proof.
  intros opened closed. subst opened closed.
  unfold modal_click, keydown. rewrite jsstring_eqb_refl.
  cbn [confirmarExclusao modal_aberto andb].
  repeat split.
  intros H. rewrite (jsstring_eqb_neq _ _ H). reflexivity.
Qed.

End Page.

Lemma submit_always_ends_loading_witness :
  exists mid,
    efeitos (submit offline (lit "Bolo") (lit "12") (lit "") fresh)
    = LoadingCadastro true
      :: Fetch (cadastrar (form_dados (lit "Bolo") (lit "12") (lit "")))
      :: mid ++ [LoadingCadastro false].
Proof.
  destruct (submit_always_ends_loading offline
              (lit "Bolo") (lit "12") (lit "") fresh) as [mid [E _]].
  - vm_compute. discriminate.
  - vm_compute. reflexivity.
  - exists mid. exact E.
Defined.

Lemma failed_call_shows_one_error_witness :
  efeitos (buscarProdutos offline fresh)
  = [Fetch listar;
     Notificacao (lit "Erro ao carregar produtos: Failed to fetch") erro;
     ListaVazia].
Proof.
  etransitivity.
  - apply (proj1 (failed_call_shows_one_error offline fresh)
                 (lit "Failed to fetch") eq_refl).
  - vm_compute. reflexivity.
Defined.

Lemma confirm_click_sends_null_witness :
  executarExclusao always_ok pending_zero = pending_zero
  /\ exists es,
       efeitos (executarExclusao always_ok
                  (confirmarExclusao 7 (lit "Bolo") fresh))
       = Fetch (excluir None) :: es.
Proof.
  split.
  - apply (proj1 (confirm_click_sends_null always_ok pending_zero)).
    reflexivity.
  - destruct (proj2 (proj2 (confirm_click_sends_null always_ok
                              (confirmarExclusao 7 (lit "Bolo") fresh)))
                eq_refl) as [es [E _]].
    exists es. exact E.
Defined.

Lemma cancelling_discards_pending_witness :
  keydown (lit "Enter") (confirmarExclusao 7 (lit "Bolo") fresh)
  = confirmarExclusao 7 (lit "Bolo") fresh.
Proof.
  apply (cancelling_discards_pending always_ok 7 (lit "Bolo") fresh
           (lit "Enter")).
  vm_compute. discriminate.
Defined.

End ClientMore.
